(** * speedy.js: type-directed code generation

    A shallow embedding of the code generators of the speedy.js compiler
    (packages/compiler/src/code-generation) and the properties of their
    natural-language specification.

    The generators are TypeScript methods that mutate one
    [CodeGenerationContext] and either return a value or throw.  They are
    embedded as functions in a state-and-failure monad [M]: the context is
    threaded explicitly and survives a failure, as the mutated JavaScript
    object does when an exception unwinds. *)

From Stdlib Require Import ZArith Zdivisibility List Bool.
From stdpp Require Import base option list countable strings pretty gmap.

Set Warnings "-register-all".

Open Scope string_scope.
Open Scope list_scope.
Open Scope Z_scope.

(** * The TypeScript front end: types, symbols, syntax nodes *)

(** A [ts.Type]: the checker's type object.  [type_id] stands for the
    identity of the object (a JavaScript [Map] keyed by types compares by
    identity), [flags] is the [ts.TypeFlags] bit set. *)
Record TsType := { type_id : nat; flags : Z }.

#[global] Instance TsType_eq_dec : EqDecision TsType.
Proof. solve_decision. Defined.

#[global] Instance TsType_countable : Countable TsType.
Proof.
  refine (inj_countable' (fun t => (type_id t, flags t))
                         (fun p => {| type_id := p.1; flags := p.2 |}) _).
  intros []; reflexivity.
Defined.

(** A [ts.Symbol], reduced to its identity and its name. *)
Record Symbol := { symbol_id : nat; symbol_name : string }.

(** [ts.PrefixUnaryOperator]: the six operator tokens of a
    [ts.PrefixUnaryExpression]. *)
Inductive PrefixUnaryOperator :=
| PlusPlusToken | MinusMinusToken | PlusToken | MinusToken
| TildeToken | ExclamationToken.

#[global] Instance PrefixUnaryOperator_eq_dec : EqDecision PrefixUnaryOperator.
Proof. solve_decision. Defined.

(** The expressions the generators of this development consume.  Every
    node carries its source position and the static type the checker
    resolved for it ([typeChecker.getTypeAtLocation]). *)
Inductive Expression :=
| Identifier (pos : nat) (symbol : Symbol) (type : TsType)
| FirstLiteralToken (pos : nat) (text : string) (type : TsType)
| PrefixUnaryExpression (pos : nat) (operator : PrefixUnaryOperator)
                        (operand : Expression) (type : TsType)
| OtherSyntax (pos : nat) (syntaxKind : nat) (type : TsType).

Definition getTypeAtLocation (node : Expression) : TsType :=
  match node with
  | Identifier _ _ t | FirstLiteralToken _ _ t
  | PrefixUnaryExpression _ _ _ t | OtherSyntax _ _ t => t
  end.

Definition getStart (node : Expression) : nat :=
  match node with
  | Identifier p _ _ | FirstLiteralToken p _ _
  | PrefixUnaryExpression p _ _ _ | OtherSyntax p _ _ => p
  end.

(** [ts.PropertyAccessExpression]: [expression.name]. *)
Record PropertyAccessExpression := {
  access_pos : nat;
  access_name : string
}.

(** * The LLVM side: types and values *)

Inductive llvmType :=
| Int1Ty | Int8Ty | Int32Ty | DoubleTy | VoidTy
| PointerTy (pointee : llvmType)
| StructTy (struct_id : nat)
| FunctionTy (result : llvmType) (params : list llvmType).

(** A JavaScript number handed to [llvm.ConstantInt.get] or
    [llvm.ConstantFP.get]; the numeric value of a literal's text
    ([+node.text]) stays symbolic. *)
Inductive jsNumber :=
| Num (z : Z)
| UnaryPlus (text : string).

(** Attributes of a called function. *)
Record FunctionProperties := { readnone : bool; noUnwind : bool }.

(** An [llvm.Value].  An instruction created by the builder is itself the
    value of its result, so instructions are values. *)
Inductive llvmValue :=
| ConstantInt (n : jsNumber)
| ConstantFP (n : jsNumber)
| Register (n : nat)
| Neg (v : llvmValue) (name : string)
| FNeg (v : llvmValue) (name : string)
| Add (a b : llvmValue) (name : string)
| FAdd (a b : llvmValue) (name : string)
| Sub (a b : llvmValue) (name : string)
| FSub (a b : llvmValue) (name : string)
| Not (v : llvmValue) (name : string)
| SIToFP (v : llvmValue) (to : llvmType)
| Load (ptr : llvmValue)
| Store (v ptr : llvmValue)
| Call (callee : string) (args : list llvmValue) (properties : FunctionProperties).

(** An [llvm.Function] of the module. *)
Record llvmFunction := {
  fn_name : string;
  fn_type : llvmType;
  fn_alwaysInline : bool
}.

(** * Values of the code generator *)

(** The [Value] implementations met here.  [ObjectIndexReference] is the
    class of the source; a [Primitive] pairs an operand with its static
    type, an [Allocation] is the storage of a variable and an
    [ObjectReference] the address of a heap entity. *)
Inductive Value :=
| Primitive (llvmValue : llvmValue) (type : TsType)
| Allocation (store : llvmValue) (type : TsType)
| ObjectReference (address : llvmValue) (type : TsType)
| ObjectIndexReference (type : TsType) (object index : Value)
                       (getter setter : option llvmFunction).

(** [value.type] *)
Definition Value_type (value : Value) : TsType :=
  match value with
  | Primitive _ t | Allocation _ t | ObjectReference _ t
  | ObjectIndexReference t _ _ _ _ => t
  end.

(** * Failures *)

(** The diagnostics the generators raise, named after the factory methods
    of [CodeGenerationDiagnostics] with the arguments of the call, and a
    plain JavaScript error for everything that is not a diagnostic. *)
Inductive Failure :=
| unsupportedSyntaxKind (node : Expression)
| unsupportedUnaryOperation (node : Expression) (typeName : string)
| unsupportedLiteralType (node : Expression) (typeName : string)
| builtInMethodNotSupported (node : PropertyAccessExpression)
                            (objectName methodName : string)
| builtInPropertyNotSupported (node : PropertyAccessExpression)
                              (objectName propertyName : string)
| unsupportedType (type : TsType)
| jsError (message : string).

Inductive DiagnosticKind :=
| UnsupportedSyntax | UnsupportedOperation | UnsupportedBuiltIn
| MissingArgument | InvalidLiteral.

(** Modelled from the spec: [CodeGenerationDiagnostics] is not in the
    sources.  The taxonomy of section 7 of the specification, by factory
    method; a JavaScript error is no diagnostic. *)
Definition diagnosticKind (f : Failure) : option DiagnosticKind :=
  match f with
  | unsupportedSyntaxKind _ => Some UnsupportedSyntax
  | unsupportedUnaryOperation _ _ => Some UnsupportedOperation
  | unsupportedLiteralType _ _ => Some InvalidLiteral
  | builtInMethodNotSupported _ _ _ => Some UnsupportedBuiltIn
  | builtInPropertyNotSupported _ _ _ => Some UnsupportedBuiltIn
  | unsupportedType _ => None
  | jsError _ => None
  end.

(** The source location a diagnostic carries: the start of its node. *)
Definition diagnosticLocation (f : Failure) : option nat :=
  match f with
  | unsupportedSyntaxKind node | unsupportedUnaryOperation node _
  | unsupportedLiteralType node _ => Some (getStart node)
  | builtInMethodNotSupported node _ _
  | builtInPropertyNotSupported node _ _ => Some (access_pos node)
  | unsupportedType _ | jsError _ => None
  end.

(** The printed type name a diagnostic carries. *)
Definition diagnosticTypeName (f : Failure) : option string :=
  match f with
  | unsupportedUnaryOperation _ typeName
  | unsupportedLiteralType _ typeName => Some typeName
  | _ => None
  end.

(** The operator a diagnostic names: the one of its node. *)
Definition diagnosticOperator (f : Failure) : option PrefixUnaryOperator :=
  match f with
  | unsupportedUnaryOperation (PrefixUnaryExpression _ operator _ _) _ =>
      Some operator
  | _ => None
  end.

(** The built-in object and the member a diagnostic names. *)
Definition diagnosticMember (f : Failure) : option (string * string) :=
  match f with
  | builtInMethodNotSupported _ objectName member
  | builtInPropertyNotSupported _ objectName member =>
      Some (objectName, member)
  | _ => None
  end.

(** * The code generation context *)

Record CodeGenerationContext := {
  (** [context.requiresGc] *)
  requiresGc : bool;
  (** the instructions [context.builder] has inserted, oldest first *)
  instructions : list llvmValue;
  (** the functions of [context.module], by name *)
  functions : gmap string llvmFunction;
  (** [context.compilationContext.builtIns] *)
  builtIns : gmap string Symbol;
  (** [context.scope], by symbol identity *)
  scope : gmap nat Value;
  (** the calls [context.assignValue(target, value)] made so far *)
  assignments : list (Value * Value)
}.

Definition M (A : Type) : Type :=
  CodeGenerationContext -> (Failure + A) * CodeGenerationContext.

#[global] Instance M_ret : MRet M := fun A a ctx => (inr a, ctx).

#[global] Instance M_bind : MBind M := fun A B k m ctx =>
  match m ctx with
  | (inl e, ctx') => (inl e, ctx')
  | (inr a, ctx') => k a ctx'
  end.

Definition throw {A} (e : Failure) : M A := fun ctx => (inl e, ctx).

(** [context.builder.createXxx(...)]: the instruction is inserted and is
    the value returned. *)
Definition insert (i : llvmValue) : M llvmValue := fun ctx =>
  (inr i, {| requiresGc := requiresGc ctx;
             instructions := instructions ctx ++ [i];
             functions := functions ctx;
             builtIns := builtIns ctx;
             scope := scope ctx;
             assignments := assignments ctx |}).

(** [context.requiresGc = b] *)
Definition set_requiresGc (b : bool) : M unit := fun ctx =>
  (inr tt, {| requiresGc := b;
              instructions := instructions ctx;
              functions := functions ctx;
              builtIns := builtIns ctx;
              scope := scope ctx;
              assignments := assignments ctx |}).

Definition add_function (f : llvmFunction) : M unit := fun ctx =>
  (inr tt, {| requiresGc := requiresGc ctx;
              instructions := instructions ctx;
              functions := <[fn_name f := f]> (functions ctx);
              builtIns := builtIns ctx;
              scope := scope ctx;
              assignments := assignments ctx |}).

Definition record_assignment (target value : Value) : M unit := fun ctx =>
  (inr tt, {| requiresGc := requiresGc ctx;
              instructions := instructions ctx;
              functions := functions ctx;
              builtIns := builtIns ctx;
              scope := scope ctx;
              assignments := assignments ctx ++ [(target, value)] |}).

Definition get_context : M CodeGenerationContext := fun ctx => (inr ctx, ctx).

(** Code of a collaborator that may fail and may insert instructions, and
    touches nothing else of the context. *)
Definition Emitter (A : Type) : Type := list llvmValue * (Failure + A).

Definition insert_all (code : list llvmValue) : M unit := fun ctx =>
  (inr tt, {| requiresGc := requiresGc ctx;
              instructions := instructions ctx ++ code;
              functions := functions ctx;
              builtIns := builtIns ctx;
              scope := scope ctx;
              assignments := assignments ctx |}).

Definition emitted {A} (e : Emitter A) : M A :=
  _ ← insert_all e.1;
  match e.2 with
  | inl f => throw f
  | inr a => mret a
  end.
Arguments emitted {A} e : simpl never.

(** * Resolved functions (resolved-function.ts) *)

Record ResolvedFunctionParameter := {
  param_name : string;
  param_type : TsType;
  param_initializer : option Expression;
  param_optional : bool;
  param_variadic : bool
}.

(** A [ResolvedFunction]; the symbol, the declaration and the definition
    are reduced to the identity of the declaration. *)
Record ResolvedFunction := {
  classType : option TsType;
  instanceMethod : bool;
  async : bool;
  functionName : option string;
  parameters : list ResolvedFunctionParameter;
  typeParameters : list TsType;
  returnType : TsType;
  sourceFile : option string;
  declaration : option nat
}.

(** [createResolvedFunction(name, typeParameters, parameters, returnType,
    sourceFile?, classType?, instanceMethod = false, async = false)] *)
Definition createResolvedFunction (name : string) (typeParameters : list TsType)
    (parameters : list ResolvedFunctionParameter) (returnType : TsType)
    (sourceFile : option string) (classType : option TsType)
    (instanceMethod async : bool) : ResolvedFunction :=
  {| async := async;
     functionName := Some name;
     parameters := parameters;
     typeParameters := typeParameters;
     instanceMethod := instanceMethod;
     returnType := returnType;
     sourceFile := sourceFile;
     classType := classType;
     declaration := None |}.

(** [createResolvedParameter(name, type, optional = false, initializer?,
    variadic = false)] *)
Definition createResolvedParameter (name : string) (type : TsType)
    (optional : bool) (initializer : option Expression) (variadic : bool)
    : ResolvedFunctionParameter :=
  {| param_name := name;
     param_type := type;
     param_optional := optional;
     param_initializer := initializer;
     param_variadic := variadic |}.

(** A [ts.Signature], as far as the generators look into it. *)
Record Signature := {
  sig_name : string;
  sig_parameterTypes : list TsType;
  sig_returnType : TsType;
  sig_variadic : bool
}.

(** A [ts.NewExpression] with the signature the checker resolved for it
    ([typeChecker.getResolvedSignature]). *)
Record NewExpression := {
  new_pos : nat;
  new_resolvedSignature : Signature
}.

(** References to functions of the runtime, by the factory that creates
    them.  Modelled from the spec, the factories
    ([ResolvedFunctionReference.createRuntimeFunction],
    [UnresolvedFunctionReference.createRuntimeFunction] and
    [UnresolvedMethodReference.createRuntimeMethod]) not being in the
    sources: a reference holds what the factory is given. *)
Inductive FunctionReference :=
| ResolvedFunctionReference (resolvedFunction : ResolvedFunction)
                            (properties : FunctionProperties)
| UnresolvedFunctionReference (signatures : list Signature)
                              (properties : FunctionProperties)
| UnresolvedMethodReference (object : Value) (signatures : list Signature)
                            (properties : FunctionProperties).

(** The property reference [ComputedObjectPropertyReferenceBuilder]
    builds. *)
Record ObjectPropertyReference := {
  property_access : PropertyAccessExpression;
  property_object : Value;
  property_readonly : bool;
  property_fromRuntime : bool
}.

(** The struct types of [context.llvmContext] and the private map
    [llvmTypes] of the [ArrayClassReference]. *)
Record StructType := {
  struct_name : string;
  struct_body : option (list llvmType)
}.

Record ArrayClassReference := {
  llvmTypes : gmap TsType nat;
  structTypes : list StructType
}.

(** * Collaborators that are not part of the sources

    The TypeScript checker and the helpers of the compiler that the
    generators call but whose code is not in the sources are parameters
    of the development. *)
Class Collaborators := {
  (** [ts.TypeFlags.IntLike], [NumberLike], [BooleanLike], [Object] *)
  TypeFlags_IntLike : Z;
  TypeFlags_NumberLike : Z;
  TypeFlags_BooleanLike : Z;
  TypeFlags_Object : Z;
  (** [typeChecker.typeToString(type)] *)
  typeToString : TsType -> string;
  (** [type.getNonNullableType()] *)
  getNonNullableType : TsType -> TsType;
  (** [isMaybeObjectType], [getArrayElementType] and [toLLVMType] of
      util/types *)
  isMaybeObjectType : TsType -> bool;
  getArrayElementType : TsType -> TsType;
  toLLVMType : TsType -> Failure + llvmType;
  (** [Primitive.toBoolean(value, type, context)], an operand *)
  Primitive_toBoolean : Value -> TsType -> Emitter llvmValue;
  (** [Primitive.toInt32(value, type, int32Type, context).generateIR()] *)
  Primitive_toInt32 : Value -> TsType -> TsType -> Emitter llvmValue;
  (** [Primitive.toNumber(value, type, numberType, context).generateIR()] *)
  Primitive_toNumber : Value -> TsType -> TsType -> Emitter llvmValue;
  (** [value.castImplicit(type, context)]; [None] is [undefined] *)
  Value_castImplicit : Value -> TsType -> Emitter (option Value);
  (** [RuntimeSystemNameMangler.mangleMethodName(type, name, argTypes)] *)
  mangleMethodName : TsType -> string -> list TsType -> string;
  (** [FunctionFactory.mangleFunctionName], the method the factory of
      speedyjs functions overrides *)
  FunctionFactory_mangleFunctionName : ResolvedFunction -> list TsType -> string;
  (** [type.getSymbol().getDeclarations()[0].getSourceFile()]; [None]
      where one of the steps is undefined *)
  declarationSourceFile : TsType -> option string;
  (** the signature of the declaration of [type.getProperty(name)] *)
  signatureOfProperty : TsType -> string -> option Signature
}.

(** * A small program world, to evaluate the generators

    Types with flags on distinct bits and collaborators that do the least
    the generators need: numbers are [i32] and [double], a boolean is an
    [i1] (the operand on which the [not] of the [!] operator is a
    negation), and an integer is widened to a number by [sitofp]. *)
Module Sample.

Definition int : TsType := {| type_id := 1; flags := 1 |}.
Definition number : TsType := {| type_id := 2; flags := 2 |}.
Definition boolean : TsType := {| type_id := 3; flags := 4 |}.
Definition string_ : TsType := {| type_id := 4; flags := 32 |}.
Definition Foo : TsType := {| type_id := 5; flags := 8 |}.
Definition Bar : TsType := {| type_id := 6; flags := 8 |}.
Definition maybeFoo : TsType := {| type_id := 7; flags := 16 |}.
Definition intArray : TsType := {| type_id := 8; flags := 8 |}.
Definition FooArray : TsType := {| type_id := 9; flags := 8 |}.
Definition BarArray : TsType := {| type_id := 10; flags := 8 |}.
Definition booleanArray : TsType := {| type_id := 11; flags := 8 |}.
Definition MathType : TsType := {| type_id := 12; flags := 8 |}.

Definition printType (t : TsType) : string :=
  match type_id t with
  | 1 => "int" | 2 => "number" | 3 => "boolean" | 4 => "string"
  | 5 => "Foo" | 6 => "Bar" | 7 => "Foo | undefined"
  | 8 => "int[]" | 9 => "Foo[]" | 10 => "Bar[]" | 11 => "boolean[]"
  | 12 => "Math" | _ => "?"
  end%nat.

Definition elementTypeOf (t : TsType) : TsType :=
  match type_id t with
  | 8 => int | 9 => Foo | 10 => Bar | 11 => boolean | _ => t
  end%nat.

Definition lowLevelType (t : TsType) : Failure + llvmType :=
  if negb (Z.land (flags t) 1 =? 0) then inr Int32Ty
  else if negb (Z.land (flags t) 2 =? 0) then inr DoubleTy
  else if negb (Z.land (flags t) 4 =? 0) then inr Int1Ty
  else if negb (Z.land (flags t) 8 =? 0) then inr (PointerTy Int8Ty)
  else inl (unsupportedType t).

Definition operandOf (value : Value) : Emitter llvmValue :=
  match value with
  | Primitive v _ | ObjectReference v _ => ([], inr v)
  | Allocation ptr _ => ([Load ptr], inr (Load ptr))
  | ObjectIndexReference t _ _ _ _ => ([], inl (unsupportedType t))
  end.

Definition toNumber (value : Value) (type numberType : TsType)
    : Emitter llvmValue :=
  match operandOf value with
  | (code, inr v) =>
      if negb (Z.land (flags type) 1 =? 0)
      then (code ++ [SIToFP v DoubleTy], inr (SIToFP v DoubleTy))
      else (code, inr v)
  | failed => failed
  end.

Definition castImplicit (value : Value) (type : TsType)
    : Emitter (option Value) :=
  if bool_decide (Value_type value = type) then ([], inr (Some value))
  else if negb (Z.land (flags (Value_type value)) 1 =? 0)
          && negb (Z.land (flags type) 2 =? 0) then
    match toNumber value (Value_type value) type with
    | (code, inr v) => (code, inr (Some (Primitive v type)))
    | (code, inl f) => (code, inl f)
    end
  else ([], inr None).

Definition baseMangledName (f : ResolvedFunction) (types : list TsType)
    : string :=
  default "$" (functionName f) +:+ "_" +:+ pretty (encode types).

Definition collaborators : Collaborators := {|
  TypeFlags_IntLike := 1;
  TypeFlags_NumberLike := 2;
  TypeFlags_BooleanLike := 4;
  TypeFlags_Object := 8;
  typeToString := printType;
  getNonNullableType := fun t => if bool_decide (t = maybeFoo) then Foo else t;
  isMaybeObjectType := fun t => bool_decide (t = maybeFoo);
  getArrayElementType := elementTypeOf;
  toLLVMType := lowLevelType;
  Primitive_toBoolean := fun value _ => operandOf value;
  Primitive_toInt32 := fun value _ _ => operandOf value;
  Primitive_toNumber := toNumber;
  Value_castImplicit := castImplicit;
  mangleMethodName := fun t name _ => printType t +:+ "_" +:+ name;
  FunctionFactory_mangleFunctionName := baseMangledName;
  declarationSourceFile := fun t =>
    if negb (Z.land (flags t) 8 =? 0) then Some "lib.d.ts" else None;
  signatureOfProperty := fun _ name =>
    if bool_decide (name = "pow")
    then Some {| sig_name := "pow";
                 sig_parameterTypes := [number; number];
                 sig_returnType := number;
                 sig_variadic := false |}
    else None
|}.

(** A context in which [x] is an [int] variable, [flag] a [boolean]
    variable and the Math object is declared. *)
Definition x : Symbol := {| symbol_id := 1; symbol_name := "x" |}.
Definition Math : Symbol := {| symbol_id := 2; symbol_name := "Math" |}.
Definition flag : Symbol := {| symbol_id := 3; symbol_name := "flag" |}.

Definition context : CodeGenerationContext :=
  {| requiresGc := false;
     instructions := [];
     functions := ∅;
     builtIns := {[ "Math" := Math ]};
     scope := {[ 1%nat := Allocation (Register 0) int;
                 2%nat := ObjectReference (Register 1) MathType;
                 3%nat := Allocation (Register 2) boolean ]};
     assignments := [] |}.

(** The specialization of [async function first<T>(items: T[])] for the
    array type [t], and a function that is not async. *)
Definition firstOf (t : TsType) : ResolvedFunction :=
  {| classType := None;
     instanceMethod := false;
     async := true;
     functionName := Some "first";
     parameters := [createResolvedParameter "items" t false None false];
     typeParameters := [];
     returnType := elementTypeOf t;
     sourceFile := Some "first.ts";
     declaration := Some 7%nat |}.

Definition max3 : ResolvedFunction :=
  {| classType := None;
     instanceMethod := false;
     async := false;
     functionName := Some "max3";
     parameters := [];
     typeParameters := [];
     returnType := int;
     sourceFile := Some "max3.ts";
     declaration := Some 8%nat |}.

Definition fresh : ArrayClassReference :=
  {| llvmTypes := ∅; structTypes := [] |}.

End Sample.

(** * resolved-function.ts: the resolved function of a signature *)

(** The syntax kinds and modifier kinds [resolved-function.ts] tests. *)
Inductive SyntaxKind :=
| ConstructSignature | MethodSignature | MethodDeclaration | Constructor
| FunctionDeclaration | FunctionExpression | CallSignature.

Inductive ModifierKind :=
| AsyncKeyword | StaticKeyword | ExportKeyword | DeclareKeyword.

#[global] Instance SyntaxKind_eq_dec : EqDecision SyntaxKind.
Proof. solve_decision. Defined.

#[global] Instance ModifierKind_eq_dec : EqDecision ModifierKind.
Proof. solve_decision. Defined.

(** A [ts.ParameterDeclaration]. *)
Record ParameterDeclaration := {
  parameter_initializer : option Expression;
  parameter_questionToken : bool;
  parameter_dotDotDotToken : bool
}.

(** A [ts.SignatureDeclaration]: [name] and [parent] are nodes, given by
    their identity, [modifiers] may be undefined, [body] is reduced to
    its presence. *)
Record SignatureDeclaration := {
  declaration_id : nat;
  declaration_kind : SyntaxKind;
  declaration_name : option nat;
  declaration_modifiers : option (list ModifierKind);
  declaration_parameters : list ParameterDeclaration;
  declaration_body : bool;
  declaration_parent : option nat;
  declaration_sourceFile : string
}.

(** A [ts.Signature] with its declaration. *)
Record DeclaredSignature := {
  signature_declaration : SignatureDeclaration;
  signature_parameters : list Symbol;
  signature_typeParameters : option (list TsType);
  signature_returnType : TsType
}.

(** The type checker, as [resolved-function.ts] queries it. *)
Class TypeChecker := {
  (** [typeChecker.getSymbolAtLocation(name)] *)
  getSymbolAtLocation : nat -> option Symbol;
  (** [symbol.declarations] *)
  symbolDeclarations : Symbol -> option (list SignatureDeclaration);
  (** [typeChecker.isImplementationOfOverload(declaration)] *)
  isImplementationOfOverload : SignatureDeclaration -> bool;
  (** [typeChecker.getTypeAtLocation(declaration.parent!)] *)
  getTypeAtParent : option nat -> TsType;
  (** [typeChecker.getTypeOfSymbolAtLocation(symbol, parameter)] *)
  getTypeOfSymbolAtLocation : Symbol -> ParameterDeclaration -> TsType
}.

(** What [createResolvedFunctionFromSignature] returns: the
    [ResolvedFunction] and the fields that record leaves out, the symbol
    of the function, its definition and the symbols of the parameters. *)
Record SignatureResolution := {
  resolution_function : ResolvedFunction;
  resolution_symbol : option Symbol;
  resolution_definition : option SignatureDeclaration;
  resolution_parameterSymbols : list Symbol
}.

(** [getClassType(signature, typeChecker)] *)
Definition getClassType `{TypeChecker} (signature : DeclaredSignature)
    : option TsType :=
  let declaration := signature_declaration signature in
  if bool_decide (declaration_kind declaration = ConstructSignature)
  then Some (signature_returnType signature)
  else if bool_decide (declaration_kind declaration = MethodSignature)
  then Some (getTypeAtParent (declaration_parent declaration))
  else None.

(** [isInstanceMethod(declaration)] *)
Definition isInstanceMethod (declaration : SignatureDeclaration) : bool :=
  if bool_decide (declaration_kind declaration = ConstructSignature)
  then false
  else if bool_decide (declaration_kind declaration = MethodSignature)
          || bool_decide (declaration_kind declaration = MethodDeclaration)
  then
    let modifiers := default [] (declaration_modifiers declaration) in
    negb (existsb (fun modifier => bool_decide (modifier = StaticKeyword))
            modifiers)
  else false.

(** [getDeclaredFunctionName(declaration, typeChecker)]: the name, or
    [undefined]; reading the name of a missing symbol is a JavaScript
    error. *)
Definition getDeclaredFunctionName `{TypeChecker}
    (declaration : SignatureDeclaration) : Failure + option string :=
  if bool_decide (declaration_kind declaration = ConstructSignature)
     || bool_decide (declaration_kind declaration = Constructor)
  then inr (Some "constructor")
  else
    match declaration_name declaration with
    | Some name =>
        match getSymbolAtLocation name with
        | Some symbol => inr (Some (symbol_name symbol))
        | None => inl (jsError "Cannot read property 'name' of undefined")
        end
    | None => inr None
    end.

(** The object the loop of [getResolvedParameters] pushes for a declared
    parameter and its symbol, and the symbol, which it holds too. *)
Definition resolveParameter `{TypeChecker} (parameter : ParameterDeclaration)
    (parameterSymbol : Symbol) : ResolvedFunctionParameter * Symbol :=
  let parameterType := getTypeOfSymbolAtLocation parameterSymbol parameter in
  ({| param_initializer := parameter_initializer parameter;
      param_name := symbol_name parameterSymbol;
      param_optional := parameter_questionToken parameter;
      param_type := parameterType;
      param_variadic := parameter_dotDotDotToken parameter |},
   parameterSymbol).

(** The loop of [getResolvedParameters]: [i] is the index, [rest] the
    declared parameters from [i] on, [resolved] what has been pushed. *)
Fixpoint getResolvedParameters_loop `{TypeChecker} (symbols : list Symbol)
    (i : nat) (rest : list ParameterDeclaration)
    (resolved : list (ResolvedFunctionParameter * Symbol))
    : Failure + list (ResolvedFunctionParameter * Symbol) :=
  match rest with
  | [] => inr resolved
  | parameter :: rest' =>
      match symbols !! i with
      | None => inl (jsError "Cannot read property 'name' of undefined")
      | Some parameterSymbol =>
          getResolvedParameters_loop symbols (S i) rest'
            (resolved ++ [resolveParameter parameter parameterSymbol])
      end
  end.

(** [getResolvedParameters(signature, typeChecker)] *)
Definition getResolvedParameters `{TypeChecker} (signature : DeclaredSignature)
    : Failure + list (ResolvedFunctionParameter * Symbol) :=
  getResolvedParameters_loop (signature_parameters signature) 0
    (declaration_parameters (signature_declaration signature)) [].

(** [createResolvedFunctionFromSignature(signature, compilationContext,
    classType?)] *)
Definition createResolvedFunctionFromSignature `{TypeChecker}
    (signature : DeclaredSignature) (classType : option TsType)
    : Failure + SignatureResolution :=
  let declaration := signature_declaration signature in
  let returnType := signature_returnType signature in
  let definition :=
    if declaration_body declaration then Some declaration else None in
  let symbol := declaration_name declaration ≫= getSymbolAtLocation in
  let definition :=
    match symbol ≫= symbolDeclarations with
    | Some declarations =>
        if bool_decide (1 < length declarations)%nat then
          match list_find isImplementationOfOverload declarations with
          | Some (_, implementation) => Some implementation
          | None => definition
          end
        else definition
    | None => definition
    end in
  match getDeclaredFunctionName declaration with
  | inl f => inl f
  | inr name =>
      match getResolvedParameters signature with
      | inl f => inl f
      | inr resolved =>
          inr {| resolution_function :=
                   {| async :=
                        match declaration_modifiers declaration with
                        | Some modifiers =>
                            existsb (fun modifier =>
                                       bool_decide (modifier = AsyncKeyword))
                              modifiers
                        | None => false
                        end;
                      classType :=
                        match classType with
                        | Some c => Some c
                        | None => getClassType signature
                        end;
                      declaration := Some (declaration_id declaration);
                      functionName := name;
                      instanceMethod := isInstanceMethod declaration;
                      parameters := resolved.*1;
                      returnType := returnType;
                      sourceFile := Some (declaration_sourceFile declaration);
                      typeParameters :=
                        default [] (signature_typeParameters signature) |};
                 resolution_symbol := symbol;
                 resolution_definition := definition;
                 resolution_parameterSymbols := resolved.*2 |}
      end
  end.

(** * util/llvm-array-helpers.ts: values and state *)

(** An [llvm.GlobalVariable] that holds a constant array. *)
Record GlobalVariable := {
  global_elementType : llvmType;
  global_numElements : nat;
  global_isConstant : bool;
  global_privateLinkage : bool;
  global_initializer : list llvmValue;
  global_name : string;
  global_unnamedAddrLocal : bool
}.

(** The [llvm.Value]s of the array helpers: the values of the generators
    above and what the helpers create.  A global variable is given by
    its index in the module; [SizeOf] is [sizeof(arrayType, context)] and
    the alignment of a store is the preferred one of the type it
    names.  A value stands for the call of the builder that creates it,
    with its operands: what the builder folds to a constant expression,
    as the cast of a global variable, is kept as the call it came
    from. *)
Inductive ArrayValue :=
| Generated (v : llvmValue)
| ConstantFalse
| ConstantPointerNull (elementType : llvmType)
| AllocaInst (elementType : llvmType) (numElements : nat)
             (name : option string)
| InBoundsGEP (ptr : ArrayValue) (indices : list llvmValue)
              (name : option string)
| AlignedStore (v : llvmValue) (ptr : ArrayValue) (prefAlignmentOf : llvmType)
| Global (index : nat)
| BitCast (v : ArrayValue) (to : llvmType)
| SizeOf (elementType : llvmType) (numElements : nat)
| CallFunction (callee : string) (args : list ArrayValue).

(** The context as the array helpers change it: the context of the
    generators, the allocations of the entry block of the current
    function, the global variables of the module, and what the builder
    was asked to create at the insertion point, in order, the
    instructions of the generators among them. *)
Record ArrayHelperContext := {
  helper_context : CodeGenerationContext;
  helper_entryBlock : list ArrayValue;
  helper_globals : list GlobalVariable;
  helper_instructions : list ArrayValue
}.

Definition MH (A : Type) : Type :=
  ArrayHelperContext -> (Failure + A) * ArrayHelperContext.

#[global] Instance MH_ret : MRet MH := fun A a st => (inr a, st).

#[global] Instance MH_bind : MBind MH := fun A B k m st =>
  match m st with
  | (inl e, st') => (inl e, st')
  | (inr a, st') => k a st'
  end.

(** Code of the generators, run by a helper: the instructions it inserts
    are inserted here too. *)
Definition lift {A} (m : M A) : MH A := fun st =>
  let r := m (helper_context st) in
  (r.1,
   {| helper_context := r.2;
      helper_entryBlock := helper_entryBlock st;
      helper_globals := helper_globals st;
      helper_instructions :=
        helper_instructions st
        ++ (Generated
              <$> drop (length (instructions (helper_context st)))
                    (instructions r.2)) |}).

(** [context.builder.createXxx(...)] of a helper: the call is recorded. *)
Definition helper_insert (i : ArrayValue) : MH ArrayValue := fun st =>
  (inr i,
   {| helper_context := helper_context st;
      helper_entryBlock := helper_entryBlock st;
      helper_globals := helper_globals st;
      helper_instructions := helper_instructions st ++ [i] |}).

(** [Allocation.createAllocaInstInEntryBlock(arrayType, context, name)]:
    the allocation goes to the entry block of the current function, not
    to the insertion point. *)
Definition createAllocaInstInEntryBlock (elementType : llvmType)
    (numElements : nat) (name : option string) : MH ArrayValue := fun st =>
  let allocation := AllocaInst elementType numElements name in
  (inr allocation,
   {| helper_context := helper_context st;
      helper_entryBlock := helper_entryBlock st ++ [allocation];
      helper_globals := helper_globals st;
      helper_instructions := helper_instructions st |}).

(** [new llvm.GlobalVariable(context.module, ...)] *)
Definition createGlobalVariable (g : GlobalVariable) : MH ArrayValue :=
  fun st =>
  (inr (Global (length (helper_globals st))),
   {| helper_context := helper_context st;
      helper_entryBlock := helper_entryBlock st;
      helper_globals := helper_globals st ++ [g];
      helper_instructions := helper_instructions st |}).

(** [value instanceof llvm.Constant] *)
Definition isConstant (v : llvmValue) : bool :=
  match v with
  | ConstantInt _ | ConstantFP _ => true
  | _ => false
  end.

(** * speedyjs-compiler-options.ts *)

(** The JavaScript values met in compiler options.  Numbers are the
    integers and NaN; an object other than an array is given by the name
    of its class. *)
Inductive JsValue :=
| JsUndefined
| JsNull
| JsBoolean (b : bool)
| JsNumber (n : Z)
| JsNaN
| JsString (s : string)
| JsArray (items : list JsValue)
| JsObject (className : string).

(** The operand of a condition: every value is truthy but [undefined],
    [null], [false], [0], [NaN] and the empty string. *)
Definition truthy (v : JsValue) : bool :=
  match v with
  | JsUndefined | JsNull | JsNaN => false
  | JsBoolean b => b
  | JsNumber n => negb (n =? 0)
  | JsString s => negb (String.eqb s "")
  | JsArray _ | JsObject _ => true
  end.

(** [typeof(v) === "undefined"] *)
Definition isUndefined (v : JsValue) : bool :=
  match v with
  | JsUndefined => true
  | _ => false
  end.

(** [object[key]]: a missing property reads as [undefined]. *)
Definition getProperty (object : gmap string JsValue) (key : string)
    : JsValue :=
  default JsUndefined (object !! key).

(** The object literal [defaults], in the order of its keys. *)
Definition defaults : list (string * JsValue) :=
  [("unsafe", JsBoolean true);
   ("emitLLVM", JsBoolean false);
   ("saveWast", JsBoolean false);
   ("binaryenOpt", JsBoolean false);
   ("initialMemory", JsNumber (16 * 1024 * 1024));
   ("totalStack", JsNumber (5 * 1024 * 104));
   ("globalBase", JsNumber 8);
   ("saveBc", JsBoolean false);
   ("disableHeapNukeOnExit", JsBoolean false);
   ("exposeGc", JsBoolean false);
   ("exportGc", JsBoolean false);
   ("optimizationLevel", JsString "2");
   ("wasmFileWriter", JsObject "DefaultWasmFileWriter")].

(** One turn of the loop over the keys of [defaults]. *)
Definition applyDefault (compilerOptions : gmap string JsValue)
    (entry : string * JsValue) : gmap string JsValue :=
  let key := entry.1 in
  <[key := if isUndefined (getProperty compilerOptions key)
           then entry.2
           else getProperty compilerOptions key]> compilerOptions.

(** [initializeCompilerOptions(compilerOptions)] *)
Definition initializeCompilerOptions (compilerOptions : gmap string JsValue)
    : gmap string JsValue :=
  let compilerOptions := foldl applyDefault compilerOptions defaults in
  let compilerOptions :=
    <["strictNullChecks" := JsBoolean true]> compilerOptions in
  let compilerOptions :=
    <["noImplicitAny" := JsBoolean true]> compilerOptions in
  let compilerOptions :=
    <["noImplicitReturns" := JsBoolean true]> compilerOptions in
  <["lib" := if truthy (getProperty compilerOptions "lib")
             then getProperty compilerOptions "lib"
             else JsArray [JsString "lib.es2015.d.ts"]]> compilerOptions.

(** What [initializeCompilerOptions] leaves at each key. *)
Definition initializedOption (object : gmap string JsValue) (key : string)
    : option JsValue :=
  if decide (key = "lib") then
    Some (if truthy (getProperty object "lib") then getProperty object "lib"
          else JsArray [JsString "lib.es2015.d.ts"])
  else if decide (key ∈ ["strictNullChecks"; "noImplicitAny";
                         "noImplicitReturns"]) then Some (JsBoolean true)
  else match (list_to_map defaults : gmap string JsValue) !! key with
       | Some d =>
           Some (if isUndefined (getProperty object key) then d
                 else getProperty object key)
       | None => object !! key
       end.

(** * benchmark/cases/isPrime-spdy.ts *)

(** An [int] expression wraps around at 32 bits. *)
Definition int32 (z : Z) : Z := (z + 2 ^ 31) mod 2 ^ 32 - 2 ^ 31.

(** [(Math.sqrt(value as number) as int)] for an [int] that is not
    negative: the conversion to a double is exact, the square root of the
    double is correctly rounded and its truncation is the integer square
    root. *)
Definition sqrt_as_int (value : Z) : Z := Z.sqrt value.

(** The [for] loop of [isPrime], from [i] on, with a bound on the number
    of turns: [None] when the bound is reached. *)
Fixpoint isPrime_loop (fuel : nat) (value i : Z) : option bool :=
  match fuel with
  | O => None
  | S fuel' =>
      if i <=? sqrt_as_int value then
        if Z.rem value i =? 0 then Some false
        else isPrime_loop fuel' value (int32 (i + 1))
      else Some true
  end.

(** [isPrime(value)] *)
Definition isPrime (fuel : nat) (value : Z) : option bool :=
  if value <=? 2 then Some false
  else isPrime_loop fuel value 2.

(** A type checker and signatures to evaluate the resolution on. *)
Module SampleSignatures.

Definition push : Symbol := {| symbol_id := 20; symbol_name := "push" |}.
Definition items : Symbol := {| symbol_id := 21; symbol_name := "items" |}.
Definition run : Symbol := {| symbol_id := 22; symbol_name := "run" |}.
Definition value : Symbol := {| symbol_id := 23; symbol_name := "value" |}.
Definition count : Symbol := {| symbol_id := 24; symbol_name := "count" |}.

Definition rest : ParameterDeclaration :=
  {| parameter_initializer := None;
     parameter_questionToken := false;
     parameter_dotDotDotToken := true |}.

Definition optional : ParameterDeclaration :=
  {| parameter_initializer := None;
     parameter_questionToken := true;
     parameter_dotDotDotToken := false |}.

Definition required : ParameterDeclaration :=
  {| parameter_initializer := None;
     parameter_questionToken := false;
     parameter_dotDotDotToken := false |}.

(** [push(...items: T[]): number], a method signature of [Array<T>]. *)
Definition pushDeclaration : SignatureDeclaration :=
  {| declaration_id := 30;
     declaration_kind := MethodSignature;
     declaration_name := Some 31%nat;
     declaration_modifiers := None;
     declaration_parameters := [rest];
     declaration_body := false;
     declaration_parent := Some 32%nat;
     declaration_sourceFile := "lib.d.ts" |}.

(** The two overloads and the implementation of
    [async function run(value: int, count?: int)]. *)
Definition runOverload : SignatureDeclaration :=
  {| declaration_id := 40;
     declaration_kind := FunctionDeclaration;
     declaration_name := Some 41%nat;
     declaration_modifiers := Some [ExportKeyword; AsyncKeyword];
     declaration_parameters := [required];
     declaration_body := false;
     declaration_parent := None;
     declaration_sourceFile := "run.ts" |}.

Definition runImplementation : SignatureDeclaration :=
  {| declaration_id := 42;
     declaration_kind := FunctionDeclaration;
     declaration_name := Some 41%nat;
     declaration_modifiers := Some [ExportKeyword; AsyncKeyword];
     declaration_parameters := [required; optional];
     declaration_body := true;
     declaration_parent := None;
     declaration_sourceFile := "run.ts" |}.

(** [new (...items: T[]): T[]], the construct signature of the array
    constructor. *)
Definition newArray : SignatureDeclaration :=
  {| declaration_id := 60;
     declaration_kind := ConstructSignature;
     declaration_name := None;
     declaration_modifiers := None;
     declaration_parameters := [rest];
     declaration_body := false;
     declaration_parent := Some 61%nat;
     declaration_sourceFile := "lib.d.ts" |}.

(** An anonymous async function expression. *)
Definition anonymous : SignatureDeclaration :=
  {| declaration_id := 50;
     declaration_kind := FunctionExpression;
     declaration_name := None;
     declaration_modifiers := Some [AsyncKeyword];
     declaration_parameters := [];
     declaration_body := true;
     declaration_parent := None;
     declaration_sourceFile := "run.ts" |}.

Definition int : TsType := {| type_id := 1; flags := 1 |}.
Definition number : TsType := {| type_id := 2; flags := 2 |}.
Definition intArray : TsType := {| type_id := 8; flags := 8 |}.

Definition checker : TypeChecker := {|
  getSymbolAtLocation := fun name =>
    if bool_decide (name = 31%nat) then Some push
    else if bool_decide (name = 41%nat) then Some run
    else None;
  symbolDeclarations := fun symbol =>
    if bool_decide (symbol_id symbol = 22%nat)
    then Some [runOverload; runImplementation]
    else if bool_decide (symbol_id symbol = 20%nat) then Some [pushDeclaration]
    else None;
  isImplementationOfOverload := fun declaration =>
    bool_decide (declaration_id declaration = 42%nat);
  getTypeAtParent := fun _ => intArray;
  getTypeOfSymbolAtLocation := fun symbol _ =>
    if bool_decide (symbol_id symbol = 21%nat) then intArray else int
|}.

Definition pushSignature : DeclaredSignature :=
  {| signature_declaration := pushDeclaration;
     signature_parameters := [items];
     signature_typeParameters := None;
     signature_returnType := number |}.

Definition runSignature : DeclaredSignature :=
  {| signature_declaration := runOverload;
     signature_parameters := [value];
     signature_typeParameters := None;
     signature_returnType := number |}.

Definition anonymousSignature : DeclaredSignature :=
  {| signature_declaration := anonymous;
     signature_parameters := [];
     signature_typeParameters := None;
     signature_returnType := number |}.

Definition newArraySignature : DeclaredSignature :=
  {| signature_declaration := newArray;
     signature_parameters := [items];
     signature_typeParameters := None;
     signature_returnType := intArray |}.

(** The signature of [runImplementation] with one symbol too few. *)
Definition brokenSignature : DeclaredSignature :=
  {| signature_declaration := runImplementation;
     signature_parameters := [value];
     signature_typeParameters := None;
     signature_returnType := number |}.

End SampleSignatures.

(** Array types with a nullable element type and with an element type
    that has no low-level type, beside those of [Sample]. *)
Module SampleArrays.

Definition maybeFooArray : TsType := {| type_id := 13; flags := 8 |}.
Definition stringArray : TsType := {| type_id := 14; flags := 8 |}.

Definition elementTypeOf (t : TsType) : TsType :=
  if bool_decide (type_id t = 13%nat) then Sample.maybeFoo
  else if bool_decide (type_id t = 14%nat) then Sample.string_
  else Sample.elementTypeOf t.

Definition collaborators : Collaborators := {|
  TypeFlags_IntLike := @TypeFlags_IntLike Sample.collaborators;
  TypeFlags_NumberLike := @TypeFlags_NumberLike Sample.collaborators;
  TypeFlags_BooleanLike := @TypeFlags_BooleanLike Sample.collaborators;
  TypeFlags_Object := @TypeFlags_Object Sample.collaborators;
  typeToString := @typeToString Sample.collaborators;
  getNonNullableType := @getNonNullableType Sample.collaborators;
  isMaybeObjectType := @isMaybeObjectType Sample.collaborators;
  getArrayElementType := elementTypeOf;
  toLLVMType := @toLLVMType Sample.collaborators;
  Primitive_toBoolean := @Primitive_toBoolean Sample.collaborators;
  Primitive_toInt32 := @Primitive_toInt32 Sample.collaborators;
  Primitive_toNumber := @Primitive_toNumber Sample.collaborators;
  Value_castImplicit := @Value_castImplicit Sample.collaborators;
  mangleMethodName := @mangleMethodName Sample.collaborators;
  FunctionFactory_mangleFunctionName :=
    @FunctionFactory_mangleFunctionName Sample.collaborators;
  declarationSourceFile := @declarationSourceFile Sample.collaborators;
  signatureOfProperty := @signatureOfProperty Sample.collaborators
|}.

(** A helper context on the context of [Sample]. *)
Definition helperContext : ArrayHelperContext :=
  {| helper_context := Sample.context;
     helper_entryBlock := [];
     helper_globals := [];
     helper_instructions := [] |}.

(** Compiler options of a caller: memory safe, no stack size, strict
    null checks switched off. *)
Definition options : gmap string JsValue :=
  {[ "unsafe" := JsBoolean false;
     "totalStack" := JsUndefined;
     "strictNullChecks" := JsBoolean false;
     "outDir" := JsString "build" ]}.

End SampleArrays.

(** A generic async function and two of its instantiations, as the
    checker resolves them at two call sites:
    [export async function first<T>(items: T[]): T], called with an
    [int[]] and with a [Foo[]].  An instantiated signature keeps the
    declaration and has parameter symbols of its own, with the
    instantiated types. *)
Module SampleGeneric.

Definition first : Symbol := {| symbol_id := 70; symbol_name := "first" |}.

Definition itemsOfInt : Symbol :=
  {| symbol_id := 72; symbol_name := "items" |}.

Definition itemsOfFoo : Symbol :=
  {| symbol_id := 73; symbol_name := "items" |}.

Definition firstDeclaration : SignatureDeclaration :=
  {| declaration_id := 7;
     declaration_kind := FunctionDeclaration;
     declaration_name := Some 71%nat;
     declaration_modifiers := Some [ExportKeyword; AsyncKeyword];
     declaration_parameters := [SampleSignatures.required];
     declaration_body := true;
     declaration_parent := None;
     declaration_sourceFile := "first.ts" |}.

Definition checker : TypeChecker := {|
  getSymbolAtLocation := fun name =>
    if bool_decide (name = 71%nat) then Some first else None;
  symbolDeclarations := fun symbol =>
    if bool_decide (symbol_id symbol = 70%nat) then Some [firstDeclaration]
    else None;
  isImplementationOfOverload := fun _ => false;
  getTypeAtParent := fun _ => Sample.MathType;
  getTypeOfSymbolAtLocation := fun symbol _ =>
    if bool_decide (symbol_id symbol = 72%nat) then Sample.intArray
    else if bool_decide (symbol_id symbol = 73%nat) then Sample.FooArray
    else Sample.int
|}.

Definition firstOfInt : DeclaredSignature :=
  {| signature_declaration := firstDeclaration;
     signature_parameters := [itemsOfInt];
     signature_typeParameters := None;
     signature_returnType := Sample.int |}.

Definition firstOfFoo : DeclaredSignature :=
  {| signature_declaration := firstDeclaration;
     signature_parameters := [itemsOfFoo];
     signature_typeParameters := None;
     signature_returnType := Sample.Foo |}.

End SampleGeneric.

Section CodeGeneration.
Context `{Collaborators}.

(** [type.flags & mask], as a JavaScript condition: true when the result
    is not zero. *)
Definition hasFlag (type : TsType) (mask : Z) : bool :=
  negb (Z.land (flags type) mask =? 0).

(** [context.toLLVMType(type)] *)
Definition context_toLLVMType (type : TsType) : M llvmType :=
  match toLLVMType type with
  | inl f => throw f
  | inr t => mret t
  end.

(** Modelled from the spec: [invoke] of util/functions is not in the
    sources.  It emits the call of the function with the given operands;
    the function of [this.getter!] or [this.setter!] may be absent, which
    is a JavaScript error. *)
Definition invoke (fn : option llvmFunction) (args : list llvmValue)
    (returnType : llvmType) : M llvmValue :=
  match fn with
  | None => throw (jsError "Cannot read property of undefined")
  | Some f => insert (Call (fn_name f) args {| readnone := false; noUnwind := false |})
  end.

(** [value.generateIR(context)].  The case of [ObjectIndexReference] is
    the method of the source (object-index-reference.ts): the getter is
    invoked on the object and the index.  Modelled from the spec, the
    other classes not being in the sources: a [Primitive] and an
    [ObjectReference] are their operand, an [Allocation] is read by a
    load. *)
Fixpoint generateIR (value : Value) : M llvmValue :=
  match value with
  | Primitive v _ => mret v
  | Allocation ptr _ => insert (Load ptr)
  | ObjectReference address _ => mret address
  | ObjectIndexReference type object index getter _ =>
      o ← generateIR object;
      i ← generateIR index;
      t ← context_toLLVMType type;
      invoke getter [o; i] t
  end.

(** [ObjectIndexReference.generateAssignmentIR(value, context)] of the
    source, and (modelled from the spec) the store into an
    [Allocation]. *)
Definition generateAssignmentIR (target value : Value) : M unit :=
  match target with
  | ObjectIndexReference _ object index _ setter =>
      valueToSet ← generateIR value;
      objectPtr ← generateIR object;
      indexValue ← generateIR index;
      _ ← invoke setter [objectPtr; indexValue; valueToSet] VoidTy;
      mret tt
  | Allocation ptr _ =>
      v ← generateIR value;
      _ ← insert (Store v ptr);
      mret tt
  | _ => throw (jsError "generateAssignmentIR is not a function")
  end.

(** [value.isAssignable()]: [true] for an [ObjectIndexReference] in the
    source, and for the storage of a variable. *)
Definition isAssignable (value : Value) : bool :=
  match value with
  | Allocation _ _ | ObjectIndexReference _ _ _ _ _ => true
  | _ => false
  end.

(** [value.isObject()]: [false] for an [ObjectIndexReference] in the
    source. *)
Definition isObject (value : Value) : bool :=
  match value with
  | ObjectReference _ _ => true
  | _ => false
  end.

(** Modelled from the spec: [CodeGenerationContext.assignValue] is not in
    the sources.  An assignable value adds the assignment operation, and
    no other value can be assigned to; the call is recorded in
    [assignments]. *)
Definition assignValue (target value : Value) : M unit :=
  _ ← record_assignment target value;
  if isAssignable target then generateAssignmentIR target value
  else throw (jsError "value is not assignable").

(** Modelled from the spec: [CodeGenerationContext.value] is not in the
    sources.  It pairs an operand with its static type; an operand of
    object type is a reference to a heap entity. *)
Definition context_value (v : llvmValue) (type : TsType) : Value :=
  if hasFlag type TypeFlags_Object then ObjectReference v type
  else Primitive v type.

(** [value.dereference(context)]: for an [ObjectIndexReference] the
    method of the source ([getValue]); modelled from the spec, the value
    read from an [Allocation]; any other value is itself. *)
Definition dereference (value : Value) : M Value :=
  match value with
  | ObjectIndexReference type _ _ _ _ =>
      call ← generateIR value;
      mret (context_value call type)
  | Allocation _ type =>
      v ← generateIR value;
      mret (context_value v type)
  | _ => mret value
  end.

(** ** first-literal-token-code-generator.ts *)

Definition FirstLiteralTokenCodeGenerator_generate (node : Expression)
    (text : string) : M Value :=
  let type := getTypeAtLocation node in
  if hasFlag type TypeFlags_IntLike then
    mret (Primitive (ConstantInt (UnaryPlus text)) type)
  else if hasFlag type TypeFlags_NumberLike then
    mret (Primitive (ConstantFP (UnaryPlus text)) type)
  else
    throw (unsupportedLiteralType node (typeToString type)).

(** ** prefix-unary-expression-code-generator.ts *)

(** The [switch] of [generate]: the operand of the result, or [None]
    where the source leaves [result] undefined. *)
Definition lowerPrefixUnary (operator : PrefixUnaryOperator) (left : Value)
    (operandType resultType : TsType) : M (option llvmValue) :=
  match operator with
  | ExclamationToken =>
      booleanValue ← emitted (Primitive_toBoolean left operandType);
      r ← insert (Not booleanValue "not");
      mret (Some r)
  | MinusToken =>
      if hasFlag operandType TypeFlags_IntLike then
        v ← generateIR left; r ← insert (Neg v "neg"); mret (Some r)
      else if hasFlag operandType TypeFlags_NumberLike then
        v ← generateIR left; r ← insert (FNeg v "neg"); mret (Some r)
      else mret None
  | MinusMinusToken =>
      if hasFlag operandType TypeFlags_IntLike then
        v ← generateIR left;
        r ← insert (Sub v (ConstantInt (Num 1)) "sub"); mret (Some r)
      else if hasFlag operandType TypeFlags_NumberLike then
        v ← generateIR left;
        r ← insert (FSub v (ConstantFP (Num 1)) "fsub"); mret (Some r)
      else mret None
  | PlusToken =>
      if hasFlag operandType TypeFlags_IntLike
         || hasFlag operandType TypeFlags_NumberLike
         || hasFlag operandType TypeFlags_BooleanLike then
        castedToResultType ← emitted (Value_castImplicit left resultType);
        match castedToResultType with
        | Some c => v ← generateIR c; mret (Some v)
        | None => mret None
        end
      else mret None
  | PlusPlusToken =>
      if hasFlag operandType TypeFlags_IntLike then
        v ← generateIR left;
        r ← insert (Add v (ConstantInt (Num 1)) "add"); mret (Some r)
      else if hasFlag operandType TypeFlags_NumberLike then
        v ← generateIR left;
        r ← insert (FAdd v (ConstantFP (Num 1)) "fadd"); mret (Some r)
      else mret None
  | TildeToken =>
      intValue ← emitted (Primitive_toInt32 left operandType resultType);
      r ← insert (Not intValue "not");
      mret (Some r)
  end.

(** [generate(node, context)]; [generateValue] is
    [context.generateValue], the dispatch the generator re-enters for its
    operand. *)
Definition PrefixUnaryExpressionCodeGenerator_generate
    (generateValue : Expression -> M Value) (node : Expression)
    (operator : PrefixUnaryOperator) (operand : Expression) : M Value :=
  left ← generateValue operand;
  let operandType := getTypeAtLocation operand in
  let resultType := getTypeAtLocation node in
  result ← lowerPrefixUnary operator left operandType resultType;
  match result with
  | None => throw (unsupportedUnaryOperation node (typeToString operandType))
  | Some result =>
      let resultValue := context_value result resultType in
      _ ← (if bool_decide (operator = PlusPlusToken)
              || bool_decide (operator = MinusMinusToken)
           then assignValue left resultValue
           else mret tt);
      mret resultValue
  end.

(** Modelled from the spec: the dispatch registry and the generator of
    identifiers are not in the sources.  Dispatch is by syntax kind, a
    kind without generator fails with [UnsupportedSyntax], and an
    identifier is the storage its symbol has in the scope. *)
Fixpoint generateValue (node : Expression) : M Value :=
  match node with
  | Identifier _ symbol _ =>
      ctx ← get_context;
      match scope ctx !! symbol_id symbol with
      | Some v => mret v
      | None => throw (jsError "variable is not declared")
      end
  | FirstLiteralToken _ text _ =>
      FirstLiteralTokenCodeGenerator_generate node text
  | PrefixUnaryExpression _ operator operand _ =>
      PrefixUnaryExpressionCodeGenerator_generate generateValue node operator operand
  | OtherSyntax _ _ _ => throw (unsupportedSyntaxKind node)
  end.

(** ** Function references *)

(** Modelled from the spec: [invokeWith] of the function references is
    not in the sources.  A function of the runtime resolves to a
    pre-declared external symbol; invoking it emits one call with the
    operands given, followed by their number for a variadic parameter,
    and the call carries the attribution of the reference.  The result is
    the value of the return type. *)
Definition invokeRuntime (name : string) (variadic : bool) (returnType : TsType)
    (properties : FunctionProperties) (args : list llvmValue) : M Value :=
  let operands :=
    if variadic then args ++ [ConstantInt (Num (Z.of_nat (length args)))]
    else args in
  call ← insert (Call name operands properties);
  mret (context_value call returnType).

Definition invokeWith (fn : FunctionReference) (args : list llvmValue)
    : M Value :=
  match fn with
  | ResolvedFunctionReference resolved properties =>
      let types := map param_type (parameters resolved) in
      let name := default "" (functionName resolved) in
      invokeRuntime
        (match classType resolved with
         | Some c => mangleMethodName c name types
         | None => FunctionFactory_mangleFunctionName resolved types
         end)
        (existsb param_variadic (parameters resolved))
        (returnType resolved) properties args
  | UnresolvedFunctionReference (signature :: _) properties =>
      invokeRuntime
        (mangleMethodName (sig_returnType signature) (sig_name signature)
           (sig_parameterTypes signature))
        (sig_variadic signature) (sig_returnType signature) properties args
  | UnresolvedMethodReference object (signature :: _) properties =>
      invokeRuntime
        (mangleMethodName (Value_type object) (sig_name signature)
           (sig_parameterTypes signature))
        (sig_variadic signature) (sig_returnType signature) properties args
  | _ => throw (jsError "no signature to call")
  end.

(** ** array-class-reference.ts *)

Definition getLLVMArrayElementType (tsElementType : TsType)
    : Failure + llvmType :=
  let tsElementType :=
    if isMaybeObjectType tsElementType then getNonNullableType tsElementType
    else tsElementType in
  if hasFlag tsElementType TypeFlags_Object then inr (PointerTy Int8Ty)
  else if hasFlag tsElementType TypeFlags_BooleanLike then inr Int8Ty
  else toLLVMType tsElementType.

(** [ArrayClassReference.fromLiteral(type, elements, context)] *)
Definition ArrayClassReference_fromLiteral (type : TsType)
    (elements : list llvmValue) : M Value :=
  let parameters := [createResolvedParameter "items" type false None true] in
  match declarationSourceFile type with
  | None => throw (jsError "Cannot read property of undefined")
  | Some file =>
      let resolvedConstructor :=
        createResolvedFunction "constructor" [] parameters type (Some file)
          (Some type) false false in
      let constructorFunction :=
        ResolvedFunctionReference resolvedConstructor
          {| readnone := false; noUnwind := false |} in
      _ ← set_requiresGc true;
      invokeWith constructorFunction elements
  end.

(** [ArrayClassReference.fromCArray(type, elementsPtr, length, context)] *)
Definition ArrayClassReference_fromCArray (type : TsType)
    (elementsPtr length : llvmValue) : M Value :=
  let constructorName := mangleMethodName type "constructor" [type] in
  ctx ← get_context;
  constructorFn ←
    match functions ctx !! constructorName with
    | Some fn => mret fn
    | None =>
        match getLLVMArrayElementType (getArrayElementType type) with
        | inl f => throw f
        | inr elementType =>
            arrayType ← context_toLLVMType type;
            let constructorType :=
              FunctionTy arrayType [PointerTy elementType; Int32Ty] in
            let fn := {| fn_name := constructorName;
                         fn_type := constructorType;
                         fn_alwaysInline := true |} in
            _ ← add_function fn;
            mret fn
        end
    end;
  arrayPtr ← insert (Call (fn_name constructorFn) [elementsPtr; length]
                       {| readnone := false; noUnwind := false |});
  _ ← set_requiresGc true;
  mret (context_value arrayPtr type).

(** [getConstructor(newExpression, context)] *)
Definition ArrayClassReference_getConstructor (newExpression : NewExpression)
    : M FunctionReference :=
  let constructorSignature := new_resolvedSignature newExpression in
  _ ← set_requiresGc true;
  mret (UnresolvedFunctionReference [constructorSignature]
          {| readnone := false; noUnwind := false |}).

(** [getLLVMType(type, context)]: the struct type of an array type.  The
    state is the [ArrayClassReference] with its cache and the struct types
    created so far; a struct type is identified by its index. *)
Definition ArrayClassReference_getLLVMType (this : ArrayClassReference)
    (type : TsType) : (Failure + llvmType) * ArrayClassReference :=
  let elementType := getArrayElementType type in
  let elementType :=
    if isMaybeObjectType elementType then getNonNullableType elementType
    else elementType in
  match llvmTypes this !! elementType with
  | Some existing => (inr (StructTy existing), this)
  | None =>
      let forwardDeclaration := length (structTypes this) in
      let declared :=
        structTypes this
        ++ [{| struct_name := "class.Array"; struct_body := None |}] in
      let cache := <[elementType := forwardDeclaration]> (llvmTypes this) in
      match getLLVMArrayElementType elementType with
      | inl f => (inl f, {| llvmTypes := cache; structTypes := declared |})
      | inr llvmElementType =>
          (inr (StructTy forwardDeclaration),
           {| llvmTypes := cache;
              structTypes :=
                <[forwardDeclaration :=
                    {| struct_name := "class.Array";
                       struct_body :=
                         Some [PointerTy llvmElementType;
                               PointerTy llvmElementType;
                               Int32Ty] |}]> declared |})
      end
  end.

(** The body of a struct type. *)
Definition structBody (this : ArrayClassReference) (t : llvmType)
    : option (list llvmType) :=
  match t with
  | StructTy id => s ← structTypes this !! id; struct_body s
  | _ => None
  end.

(** ** speedyjs-function-factory.ts *)

(** [SpeedyJSFunctionFactory.mangleFunctionName]; the result is
    [undefined] for an anonymous async function. *)
Definition mangleFunctionName (resolvedFunction : ResolvedFunction)
    (typesOfUsedParameters : list TsType) : option string :=
  if async resolvedFunction then functionName resolvedFunction
  else Some (FunctionFactory_mangleFunctionName resolvedFunction
               typesOfUsedParameters).

(** ** math-object-reference.ts *)

Definition typeName : string := "Math".

(** Modelled from the spec: [BuiltInObjectReference.throwUnsupportedBuiltIn]
    is not in the sources.  An unrecognized member access on a built-in
    object fails with UnsupportedBuiltIn naming the object and the
    member. *)
Definition throwUnsupportedBuiltIn {A} (node : PropertyAccessExpression)
    : M A :=
  throw (builtInPropertyNotSupported node typeName (access_name node)).

(** [createFunctionFor(symbol, signatures, propertyAccessExpression,
    context)] *)
Definition MathObjectReference_createFunctionFor (this : Value)
    (symbol : Symbol) (signatures : list Signature)
    (propertyAccessExpression : PropertyAccessExpression)
    : M FunctionReference :=
  if bool_decide (symbol_name symbol ∈ ["pow"; "sqrt"; "log"; "sin"; "cos"; "max"])
  then mret (UnresolvedMethodReference this signatures
               {| readnone := true; noUnwind := true |})
  else throw (builtInMethodNotSupported propertyAccessExpression "Math"
                (symbol_name symbol)).

(** [createPropertyReference(symbol, propertyAccess, context)] *)
Definition MathObjectReference_createPropertyReference (this : Value)
    (symbol : Symbol) (propertyAccess : PropertyAccessExpression)
    : M ObjectPropertyReference :=
  if bool_decide (symbol_name symbol = "PI")
  then mret {| property_access := propertyAccess;
               property_object := this;
               property_readonly := true;
               property_fromRuntime := true |}
  else throwUnsupportedBuiltIn propertyAccess.

(** [MathObjectReference.pow(lhs, lhsType, rhs, rhsType, numberType,
    context)].  The non-null assertions of the source are erased by the
    compiler; a missing Math object surfaces as a JavaScript error when
    it is dereferenced. *)
Definition MathObjectReference_pow (lhs : Value) (lhsType : TsType)
    (rhs : Value) (rhsType : TsType) (numberType : TsType) : M Value :=
  ctx ← get_context;
  match builtIns ctx !! "Math" ≫= (fun mathSymbol =>
          scope ctx !! symbol_id mathSymbol) with
  | None => throw (jsError "Cannot read property of undefined")
  | Some mathAllocation =>
      mathObject ← dereference mathAllocation;
      match signatureOfProperty (Value_type mathObject) "pow" with
      | None => throw (jsError "Cannot read property of undefined")
      | Some powSignature =>
          let method :=
            UnresolvedMethodReference mathObject [powSignature]
              {| readnone := true; noUnwind := true |} in
          a ← emitted (Primitive_toNumber lhs lhsType numberType);
          b ← emitted (Primitive_toNumber rhs rhsType numberType);
          invokeWith method [a; b]
      end
  end.

(** ** util/llvm-array-helpers.ts *)

(** [context.module.getOrInsertFunction(name, type)] *)
Definition getOrInsertFunction (name : string) (type : llvmType)
    : M llvmFunction :=
  ctx ← get_context;
  match functions ctx !! name with
  | Some fn => mret fn
  | None =>
      let fn := {| fn_name := name; fn_type := type;
                   fn_alwaysInline := false |} in
      _ ← add_function fn;
      mret fn
  end.

(** [assignFromConstantArray(arrayAllocation, elements, elementType,
    context, name)] *)
Definition assignFromConstantArray (arrayAllocation : ArrayValue)
    (elements : list llvmValue) (elementType : llvmType)
    (name : option string) : MH unit :=
  global ← createGlobalVariable
    {| global_elementType := elementType;
       global_numElements := length elements;
       global_isConstant := true;
       global_privateLinkage := true;
       global_initializer := elements;
       global_name :=
         match name with
         | Some n => if String.eqb n "" then "values" else n
         | None => "values"
         end;
       global_unnamedAddrLocal := true |};
  let pointerType := PointerTy Int8Ty in
  arrayValue ← helper_insert (BitCast arrayAllocation pointerType);
  globalValue ← helper_insert (BitCast global pointerType);
  let memcpyType :=
    FunctionTy VoidTy [pointerType; pointerType; Int32Ty; Int32Ty; Int1Ty] in
  memcpy ← lift (getOrInsertFunction "llvm.memcpy.p0i8.p0i8.i32" memcpyType);
  _ ← helper_insert
        (CallFunction (fn_name memcpy)
           [arrayValue; globalValue;
            SizeOf elementType (length elements);
            Generated (ConstantInt (Num 0));
            ConstantFalse]);
  mret tt.

(** The [for] loop of [allocateLlvmArrayWith], from index [i] on. *)
Fixpoint storeElements (allocation : ArrayValue) (elementType : llvmType)
    (i : nat) (rest : list llvmValue) : MH unit :=
  match rest with
  | [] => mret tt
  | element :: rest' =>
      ptr ← helper_insert
              (InBoundsGEP allocation
                 [ConstantInt (Num 0); ConstantInt (Num (Z.of_nat i))] None);
      _ ← helper_insert (AlignedStore element ptr elementType);
      storeElements allocation elementType (S i) rest'
  end.

(** [allocateLlvmArrayWith(elements, elementType, context, name)] *)
Definition allocateLlvmArrayWith (elements : list llvmValue)
    (elementType : llvmType) (name : option string) : MH ArrayValue :=
  let ZERO := ConstantInt (Num 0) in
  allocation ← createAllocaInstInEntryBlock elementType (length elements) name;
  let areAllElementsConstants := forallb isConstant elements in
  array ← helper_insert (InBoundsGEP allocation [ZERO; ZERO] name);
  _ ← (if areAllElementsConstants
       then assignFromConstantArray allocation elements elementType name
       else storeElements allocation elementType 0 elements);
  mret array.

(** [elements.map(element =>
    context.generateValue(element).generateIR(context))] *)
Fixpoint generateElements (elements : list Expression) : M (list llvmValue) :=
  match elements with
  | [] => mret []
  | element :: rest =>
      value ← generateValue element;
      v ← generateIR value;
      values ← generateElements rest;
      mret (v :: values)
  end.

(** [llvmArrayValue(elements, elementType, context, name)]; the elements
    are values or nodes. *)
Definition llvmArrayValue (elements : list llvmValue + list Expression)
    (elementType : llvmType) (name : option string) : MH ArrayValue :=
  match elements with
  | inl [] | inr [] => mret (ConstantPointerNull elementType)
  | inl values => allocateLlvmArrayWith values elementType name
  | inr nodes =>
      values ← lift (generateElements nodes);
      allocateLlvmArrayWith values elementType name
  end.

(** * Generation steps of one compilation *)

(** The entry points above, as the steps a compilation is made of. *)
Inductive GenerationStep :=
| GenerateValue (node : Expression)
| ArrayFromLiteral (type : TsType) (elements : list llvmValue)
| ArrayFromCArray (type : TsType) (elementsPtr length : llvmValue)
| ArrayGetConstructor (newExpression : NewExpression)
| MathCreateFunctionFor (this : Value) (symbol : Symbol)
    (signatures : list Signature) (access : PropertyAccessExpression)
| MathCreatePropertyReference (this : Value) (symbol : Symbol)
    (access : PropertyAccessExpression)
| MathPow (lhs : Value) (lhsType : TsType) (rhs : Value) (rhsType : TsType)
    (numberType : TsType).

Definition runStep (step : GenerationStep) : M unit :=
  match step with
  | GenerateValue node => _ ← generateValue node; mret tt
  | ArrayFromLiteral type elements =>
      _ ← ArrayClassReference_fromLiteral type elements; mret tt
  | ArrayFromCArray type elementsPtr length =>
      _ ← ArrayClassReference_fromCArray type elementsPtr length; mret tt
  | ArrayGetConstructor newExpression =>
      _ ← ArrayClassReference_getConstructor newExpression; mret tt
  | MathCreateFunctionFor this symbol signatures access =>
      _ ← MathObjectReference_createFunctionFor this symbol signatures access;
      mret tt
  | MathCreatePropertyReference this symbol access =>
      _ ← MathObjectReference_createPropertyReference this symbol access;
      mret tt
  | MathPow lhs lhsType rhs rhsType numberType =>
      _ ← MathObjectReference_pow lhs lhsType rhs rhsType numberType; mret tt
  end.

(** The steps in sequence; a failure aborts the compilation. *)
Fixpoint runSteps (steps : list GenerationStep) : M unit :=
  match steps with
  | [] => mret tt
  | step :: rest => _ ← runStep step; runSteps rest
  end.

(** The steps that construct an array. *)
Definition constructsArray (step : GenerationStep) : bool :=
  match step with
  | ArrayFromLiteral _ _ | ArrayFromCArray _ _ _ | ArrayGetConstructor _ => true
  | _ => false
  end.

(** * Notions the properties are stated with *)

(** [ctx'] is [ctx] with instructions appended and nothing else
    changed. *)
Definition extends (ctx ctx' : CodeGenerationContext) : Prop :=
  requiresGc ctx' = requiresGc ctx /\
  functions ctx' = functions ctx /\
  builtIns ctx' = builtIns ctx /\
  scope ctx' = scope ctx /\
  assignments ctx' = assignments ctx /\
  exists code, instructions ctx' = instructions ctx ++ code.

Definition inserts_only {A} (m : M A) : Prop :=
  forall ctx, extends ctx (m ctx).2.

(** The conversion of the operand to which [!] and [~] apply [not]:
    [Primitive.toBoolean(left, operandType, context)] for [!] and
    [Primitive.toInt32(left, operandType, resultType, context)] for [~].
    The other operators have none. *)
Definition notOperand (operator : PrefixUnaryOperator) (left : Value)
    (operandType resultType : TsType) : option (Emitter llvmValue) :=
  match operator with
  | ExclamationToken => Some (Primitive_toBoolean left operandType)
  | TildeToken => Some (Primitive_toInt32 left operandType resultType)
  | _ => None
  end.

(** The instruction of each arithmetic operator in the two families. *)
Definition integerInstruction (operator : PrefixUnaryOperator) (v : llvmValue)
    : option llvmValue :=
  match operator with
  | MinusToken => Some (Neg v "neg")
  | PlusPlusToken => Some (Add v (ConstantInt (Num 1)) "add")
  | MinusMinusToken => Some (Sub v (ConstantInt (Num 1)) "sub")
  | _ => None
  end.

Definition floatingPointInstruction (operator : PrefixUnaryOperator)
    (v : llvmValue) : option llvmValue :=
  match operator with
  | MinusToken => Some (FNeg v "neg")
  | PlusPlusToken => Some (FAdd v (ConstantFP (Num 1)) "fadd")
  | MinusMinusToken => Some (FSub v (ConstantFP (Num 1)) "fsub")
  | _ => None
  end.

(** What [generate] does once the instruction [i] is selected: the value
    of the result type is formed, assigned to the operand for [++] and
    [--], and returned. *)
Definition finishPrefixUnary (operator : PrefixUnaryOperator) (left : Value)
    (i : llvmValue) (resultType : TsType) : M Value :=
  let resultValue := context_value i resultType in
  _ ← (if bool_decide (operator = PlusPlusToken)
          || bool_decide (operator = MinusMinusToken)
       then assignValue left resultValue
       else mret tt);
  mret resultValue.

(** What the assignment of the operand [v] to [target] inserts in [ctx],
    giving [ctx']: for the storage of a variable, one store of [v] into
    it; for an indexed element, the reads of the object and of the
    index, then the call of the setter on them and [v].  Nothing else can
    be assigned to. *)
Definition assigned (target : Value) (v : llvmValue)
    (ctx ctx' : CodeGenerationContext) : Prop :=
  match target with
  | Allocation ptr _ => instructions ctx' = instructions ctx ++ [Store v ptr]
  | ObjectIndexReference _ object index _ setter =>
      exists fn objectPtr indexValue ctxA ctxB,
        setter = Some fn /\
        generateIR object ctx = (inr objectPtr, ctxA) /\
        generateIR index ctxA = (inr indexValue, ctxB) /\
        instructions ctx'
        = instructions ctxB
          ++ [Call (fn_name fn) [objectPtr; indexValue; v]
                {| readnone := false; noUnwind := false |}]
  | _ => False
  end.

(** Code that leaves a GC-required flag that is set as it is. *)
Definition keeps_gc {A} (m : M A) : Prop :=
  forall ctx, requiresGc ctx = true -> requiresGc (m ctx).2 = true.

(** The element type [getLLVMType] keys its cache by: the element type of
    the array type, without nullability if it is a maybe-object type. *)
Definition cachedElementType (type : TsType) : TsType :=
  let elementType := getArrayElementType type in
  if isMaybeObjectType elementType then getNonNullableType elementType
  else elementType.

(** The states of an [ArrayClassReference]: it is created with an empty
    cache ([llvmTypes = new Map()]), and [getLLVMType] alone changes the
    cache, when it returns and when it throws. *)
Inductive reachable : ArrayClassReference -> Prop :=
| reachable_created : reachable {| llvmTypes := ∅; structTypes := [] |}
| reachable_getLLVMType (this : ArrayClassReference) (type : TsType) :
    reachable this ->
    reachable (ArrayClassReference_getLLVMType this type).2.

(** Every cached struct type is declared, and has the layout of its
    element type if that type has a storage type. *)
Definition cache_laid_out (this : ArrayClassReference) : Prop :=
  forall (elementType : TsType) (id : nat),
    llvmTypes this !! elementType = Some id ->
    (id < length (structTypes this))%nat /\
    forall e,
      getLLVMArrayElementType elementType = inr e ->
      structBody this (StructTy id)
      = Some [PointerTy e; PointerTy e; Int32Ty].

(** Two resolved functions are specializations of the same declaration. *)
Definition sameDeclaration (f g : ResolvedFunction) : Prop :=
  declaration f = declaration g /\
  functionName f = functionName g /\
  classType f = classType g /\
  async f = async g.

(** The instructions the loop of [allocateLlvmArrayWith] inserts for the
    element at index [i]. *)
Definition storeOf (allocation : ArrayValue) (elementType : llvmType)
    (i : nat) (element : llvmValue) : list ArrayValue :=
  let ptr :=
    InBoundsGEP allocation
      [ConstantInt (Num 0); ConstantInt (Num (Z.of_nat i))] None in
  [ptr; AlignedStore element ptr elementType].

(** The cached struct types are declared, and no struct type is cached
    for two element types. *)
Definition cache_distinct (this : ArrayClassReference) : Prop :=
  (forall (elementType : TsType) (id : nat),
     llvmTypes this !! elementType = Some id ->
     (id < length (structTypes this))%nat) /\
  (forall (elementType1 elementType2 : TsType) (id : nat),
     llvmTypes this !! elementType1 = Some id ->
     llvmTypes this !! elementType2 = Some id ->
     elementType1 = elementType2).

(** A helper context with instructions inserted. *)
Definition inserting (st : ArrayHelperContext) (code : list ArrayValue)
    : ArrayHelperContext :=
  {| helper_context := helper_context st;
     helper_entryBlock := helper_entryBlock st;
     helper_globals := helper_globals st;
     helper_instructions := helper_instructions st ++ code |}.

(** An instruction that stores. *)
Definition isStore (i : ArrayValue) : bool :=
  match i with
  | AlignedStore _ _ _ => true
  | _ => false
  end.

(** * Frame lemmas: code that only inserts instructions *)

Lemma extends_refl ctx : extends ctx ctx.
Proof.
  repeat split; exists []; symmetry; apply app_nil_r.
Qed.

Lemma extends_trans a b c : extends a b -> extends b c -> extends a c.
Proof.
  intros (g1 & f1 & b1 & s1 & a1 & code1 & i1) (g2 & f2 & b2 & s2 & a2 & code2 & i2).
  repeat split; try congruence.
  exists (code1 ++ code2). rewrite i2, i1, app_assoc. reflexivity.
Qed.

Lemma inserts_only_ret {A} (a : A) : inserts_only (mret a).
Proof. intros ctx. apply extends_refl. Qed.

Lemma inserts_only_throw {A} e : inserts_only (@throw A e).
Proof. intros ctx. apply extends_refl. Qed.

Lemma inserts_only_bind {A B} (m : M A) (k : A -> M B) :
  inserts_only m -> (forall a, inserts_only (k a)) -> inserts_only (m ≫= k).
Proof.
  intros Hm Hk ctx. unfold mbind, M_bind.
  specialize (Hm ctx). destruct (m ctx) as [[e|a] ctx1]; simpl in *; auto.
  eapply extends_trans; [exact Hm | apply Hk].
Qed.

Lemma inserts_only_insert i : inserts_only (insert i).
Proof. intros ctx. repeat split. exists [i]. reflexivity. Qed.

Lemma inserts_only_insert_all code : inserts_only (insert_all code).
Proof. intros ctx. repeat split. exists code. reflexivity. Qed.

Lemma inserts_only_emitted {A} (e : Emitter A) : inserts_only (emitted e).
Proof.
  unfold emitted. apply inserts_only_bind; [apply inserts_only_insert_all|].
  intros _. destruct e.2; [apply inserts_only_throw | apply inserts_only_ret].
Qed.

Lemma inserts_only_toLLVMType type : inserts_only (context_toLLVMType type).
Proof.
  unfold context_toLLVMType.
  destruct (toLLVMType type); [apply inserts_only_throw | apply inserts_only_ret].
Qed.

Lemma inserts_only_invoke fn args t : inserts_only (invoke fn args t).
Proof.
  destruct fn; [apply inserts_only_insert | apply inserts_only_throw].
Qed.

Lemma inserts_only_requiresGc {A} (m : M A) ctx r ctx' :
  m ctx = (r, ctx') -> inserts_only m -> requiresGc ctx' = requiresGc ctx.
Proof.
  intros E Hm. destruct (Hm ctx) as [Hgc _]. rewrite E in Hgc. exact Hgc.
Qed.

Create HintDb frame.
#[local] Hint Resolve inserts_only_ret inserts_only_throw inserts_only_insert
  inserts_only_insert_all inserts_only_emitted inserts_only_toLLVMType
  inserts_only_invoke : frame.

Ltac frame := repeat first
  [ solve [auto with frame]
  | apply inserts_only_bind; [|intros ?] ].

Lemma inserts_only_generateIR value : inserts_only (generateIR value).
Proof.
  induction value; simpl; frame; auto.
Qed.
#[local] Hint Resolve inserts_only_generateIR : frame.

Lemma inserts_only_generateAssignmentIR target value :
  inserts_only (generateAssignmentIR target value).
Proof.
  destruct target; simpl; frame.
Qed.

Lemma inserts_only_lowerPrefixUnary operator left operandType resultType :
  inserts_only (lowerPrefixUnary operator left operandType resultType).
Proof.
  destruct operator; simpl;
    repeat match goal with |- context [if ?b then _ else _] => destruct b end;
    frame.
  destruct a; frame.
Qed.
#[local] Hint Resolve inserts_only_generateAssignmentIR
  inserts_only_lowerPrefixUnary : frame.

(** * Numeric literals *)

(** C9: a numeric literal whose resolved type is integer-like yields an
    integer constant, one whose type is floating-point-like (number-like
    and not integer-like, the order in which the generator tests) yields a
    floating-point constant, and any other resolved type fails with the
    InvalidLiteral diagnostic, which carries the literal's source location
    and the printed name of the type.  Nothing is inserted in any case. *)
Theorem literal_generate_by_static_type (node : Expression) (text : string)
    (ctx : CodeGenerationContext) :
  let type := getTypeAtLocation node in
  let outcome := FirstLiteralTokenCodeGenerator_generate node text ctx in
  (hasFlag type TypeFlags_IntLike = true ->
     outcome = (inr (Primitive (ConstantInt (UnaryPlus text)) type), ctx)) /\
  (hasFlag type TypeFlags_IntLike = false ->
   hasFlag type TypeFlags_NumberLike = true ->
     outcome = (inr (Primitive (ConstantFP (UnaryPlus text)) type), ctx)) /\
  (hasFlag type TypeFlags_IntLike = false ->
   hasFlag type TypeFlags_NumberLike = false ->
     exists d, outcome = (inl d, ctx) /\
       diagnosticKind d = Some InvalidLiteral /\
       diagnosticLocation d = Some (getStart node) /\
       diagnosticTypeName d = Some (typeToString type)).
Proof.
  cbv zeta. unfold FirstLiteralTokenCodeGenerator_generate.
  repeat split.
  - intros ->. reflexivity.
  - intros -> ->. reflexivity.
  - intros -> ->. eexists. split; [reflexivity|]. repeat split.
Qed.

(** * Prefix unary expressions *)


(** C7: for the operators [-], [++] and [--] the instruction is chosen
    from the flags of the operand's static type alone.  An integer-like
    operand gets the integer instruction (neg, add 1, sub 1) and a
    floating-point-like operand (number-like and not integer-like) the
    floating-point one (fneg, fadd 1.0, fsub 1.0).  The selected
    instruction is the only one inserted between the code of the operand
    and the assignment of [++] and [--]: no test of a runtime type. *)
Theorem prefix_unary_instruction_family
    (generateOperand : Expression -> M Value) (node : Expression)
    (operator : PrefixUnaryOperator) (operand : Expression)
    (left : Value) (v i : llvmValue) (ctx ctx1 ctx2 : CodeGenerationContext) :
  let operandType := getTypeAtLocation operand in
  generateOperand operand ctx = (inr left, ctx1) ->
  generateIR left ctx1 = (inr v, ctx2) ->
  (hasFlag operandType TypeFlags_IntLike = true /\
     integerInstruction operator v = Some i) \/
  (hasFlag operandType TypeFlags_IntLike = false /\
   hasFlag operandType TypeFlags_NumberLike = true /\
     floatingPointInstruction operator v = Some i) ->
  exists ctx3,
    insert i ctx2 = (inr i, ctx3) /\
    instructions ctx3 = instructions ctx2 ++ [i] /\
    PrefixUnaryExpressionCodeGenerator_generate generateOperand node operator
      operand ctx
    = finishPrefixUnary operator left i (getTypeAtLocation node) ctx3.
Proof.
  cbv zeta. intros Hleft Hir Hfam.
  eexists. split; [reflexivity|]. split; [reflexivity|].
  unfold PrefixUnaryExpressionCodeGenerator_generate, finishPrefixUnary,
    mbind at 1 2, M_bind.
  rewrite Hleft.
  destruct Hfam as [[Hint Hi] | (Hint & Hnum & Hi)];
    destruct operator; try discriminate; simpl in Hi; injection Hi as <-;
    simpl; rewrite Hint, ?Hnum; unfold mbind, M_bind; rewrite Hir;
    reflexivity.
Qed.

(** The value of an instruction of the generator is read without code. *)
Lemma generateIR_context_value (v : llvmValue) (type : TsType)
    (ctx : CodeGenerationContext) :
  generateIR (context_value v type) ctx = (inr v, ctx).
Proof. unfold context_value. destruct (hasFlag _ _); reflexivity. Qed.

(** [assignValue] on a context [ctx], whose call is recorded in [ctx0]:
    when it returns, the target is assigned to. *)
Lemma assignValue_assigned (target : Value) (v : llvmValue) (type : TsType)
    (ctx ctx' : CodeGenerationContext) :
  let recorded := (record_assignment target (context_value v type) ctx).2 in
  assignValue target (context_value v type) ctx = (inr tt, ctx') ->
  assigned target v recorded ctx' /\
  assignments ctx' = assignments ctx ++ [(target, context_value v type)].
Proof.
  cbv zeta. unfold assignValue, mbind at 1, M_bind.
  cbn [record_assignment fst snd].
  set (recorded := {| requiresGc := requiresGc ctx |}).
  intros Hassign. split.
  - destruct target as [| ptr t | | t object index getter setter];
      cbn [isAssignable] in Hassign; try discriminate Hassign.
    + cbn [generateAssignmentIR] in Hassign.
      unfold mbind, M_bind in Hassign.
      rewrite generateIR_context_value in Hassign.
      injection Hassign as <-. reflexivity.
    + cbn [generateAssignmentIR] in Hassign.
      unfold mbind, M_bind in Hassign.
      rewrite generateIR_context_value in Hassign.
      destruct (generateIR object recorded) as [[f|objectPtr] ctxA] eqn:Ho;
        [discriminate|].
      destruct (generateIR index ctxA) as [[f|indexValue] ctxB] eqn:Hi;
        [discriminate|].
      destruct setter as [fn|]; [|discriminate].
      cbn in Hassign. injection Hassign as <-.
      exists fn, objectPtr, indexValue, ctxA, ctxB.
      split; [reflexivity|]. split; [exact Ho|]. split; [exact Hi|].
      reflexivity.
  - destruct (isAssignable target); [|discriminate].
    pose proof (inserts_only_generateAssignmentIR target
                  (context_value v type) recorded) as (_ & _ & _ & _ & Ha & _).
    rewrite Hassign in Ha. exact Ha.
Qed.


(** * The GC-required flag *)

Lemma keeps_gc_inserts_only {A} (m : M A) : inserts_only m -> keeps_gc m.
Proof. intros Hm ctx Hgc. destruct (Hm ctx) as [-> _]. exact Hgc. Qed.

Lemma keeps_gc_bind {A B} (m : M A) (k : A -> M B) :
  keeps_gc m -> (forall a, keeps_gc (k a)) -> keeps_gc (m ≫= k).
Proof.
  intros Hm Hk ctx Hgc. unfold mbind, M_bind.
  specialize (Hm ctx Hgc). destruct (m ctx) as [[e|a] ctx1]; simpl in *; auto.
  apply Hk, Hm.
Qed.

Lemma keeps_gc_set_true : keeps_gc (set_requiresGc true).
Proof. intros ctx _. reflexivity. Qed.

Lemma keeps_gc_add_function f : keeps_gc (add_function f).
Proof. intros ctx Hgc. exact Hgc. Qed.

Lemma keeps_gc_record_assignment target value :
  keeps_gc (record_assignment target value).
Proof. intros ctx Hgc. exact Hgc. Qed.

Lemma keeps_gc_get_context : keeps_gc get_context.
Proof. intros ctx Hgc. exact Hgc. Qed.

Lemma inserts_only_invokeWith fn args : inserts_only (invokeWith fn args).
Proof.
  destruct fn as [resolved p | [|sig sigs] p | object [|sig sigs] p]; simpl;
    unfold invokeRuntime; frame.
Qed.
#[local] Hint Resolve inserts_only_invokeWith : frame.

Lemma inserts_only_dereference value : inserts_only (dereference value).
Proof.
  destruct value; unfold dereference; frame.
Qed.
#[local] Hint Resolve inserts_only_dereference : frame.

Create HintDb gc.
#[local] Hint Resolve keeps_gc_set_true keeps_gc_add_function
  keeps_gc_record_assignment keeps_gc_get_context : gc.

Ltac gc := repeat first
  [ solve [auto with gc]
  | solve [apply keeps_gc_inserts_only; frame]
  | apply keeps_gc_bind; [|intros ?] ].

Lemma keeps_gc_assignValue target value : keeps_gc (assignValue target value).
Proof. unfold assignValue. destruct (isAssignable target); gc. Qed.
#[local] Hint Resolve keeps_gc_assignValue : gc.

Lemma keeps_gc_prefix_unary generateOperand node operator operand :
  keeps_gc (generateOperand operand) ->
  keeps_gc (PrefixUnaryExpressionCodeGenerator_generate generateOperand node
              operator operand).
Proof.
  intros Hoperand. unfold PrefixUnaryExpressionCodeGenerator_generate.
  apply keeps_gc_bind; [exact Hoperand | intros left].
  apply keeps_gc_bind; [gc | intros [result|]]; [|gc].
  destruct (bool_decide _ || bool_decide _); gc.
Qed.

Lemma keeps_gc_generateValue node : keeps_gc (generateValue node).
Proof.
  induction node; simpl.
  - apply keeps_gc_bind; [gc | intros ctx0].
    destruct (scope ctx0 !! symbol_id symbol); gc.
  - unfold FirstLiteralTokenCodeGenerator_generate.
    repeat match goal with |- context [if ?b then _ else _] => destruct b end; gc.
  - apply keeps_gc_prefix_unary, IHnode.
  - gc.
Qed.

Lemma keeps_gc_fromLiteral type elements :
  keeps_gc (ArrayClassReference_fromLiteral type elements).
Proof.
  unfold ArrayClassReference_fromLiteral.
  destruct (declarationSourceFile type); gc.
Qed.

Lemma keeps_gc_fromCArray type elementsPtr length :
  keeps_gc (ArrayClassReference_fromCArray type elementsPtr length).
Proof.
  unfold ArrayClassReference_fromCArray.
  apply keeps_gc_bind; [gc | intros ctx0].
  apply keeps_gc_bind; [|gc].
  destruct (functions ctx0 !! _); [gc|].
  destruct (getLLVMArrayElementType _); gc.
Qed.

Lemma keeps_gc_getConstructor newExpression :
  keeps_gc (ArrayClassReference_getConstructor newExpression).
Proof. unfold ArrayClassReference_getConstructor. gc. Qed.

Lemma keeps_gc_pow lhs lhsType rhs rhsType numberType :
  keeps_gc (MathObjectReference_pow lhs lhsType rhs rhsType numberType).
Proof.
  unfold MathObjectReference_pow.
  apply keeps_gc_bind; [gc | intros ctx0].
  destruct (_ ≫= _); [|gc].
  apply keeps_gc_bind; [gc | intros mathObject].
  destruct (signatureOfProperty _ _); gc.
Qed.

Lemma keeps_gc_runStep step : keeps_gc (runStep step).
Proof.
  destruct step; simpl; (apply keeps_gc_bind; [|intros ?; gc]).
  - apply keeps_gc_generateValue.
  - apply keeps_gc_fromLiteral.
  - apply keeps_gc_fromCArray.
  - apply keeps_gc_getConstructor.
  - unfold MathObjectReference_createFunctionFor. destruct (bool_decide _); gc.
  - unfold MathObjectReference_createPropertyReference, throwUnsupportedBuiltIn.
    destruct (bool_decide _); gc.
  - apply keeps_gc_pow.
Qed.

Lemma keeps_gc_runSteps steps : keeps_gc (runSteps steps).
Proof.
  induction steps as [|step rest IH]; simpl; [gc|].
  apply keeps_gc_bind; [apply keeps_gc_runStep | intros _; exact IH].
Qed.

Lemma runSteps_app before after ctx :
  runSteps (before ++ after) ctx
  = match runSteps before ctx with
    | (inl e, ctx') => (inl e, ctx')
    | (inr _, ctx') => runSteps after ctx'
    end.
Proof.
  revert ctx. induction before as [|step rest IH]; intros ctx; simpl.
  - reflexivity.
  - unfold mbind, M_bind. destruct (runStep step ctx) as [[e|[]] ctx1].
    + reflexivity.
    + apply IH.
Qed.

(** The three entry points set the flag before they return. *)
Lemma fromLiteral_sets_gc type elements ctx v ctx' :
  ArrayClassReference_fromLiteral type elements ctx = (inr v, ctx') ->
  requiresGc ctx' = true.
Proof.
  unfold ArrayClassReference_fromLiteral.
  destruct (declarationSourceFile type); [|discriminate].
  unfold mbind, M_bind, set_requiresGc. intros E.
  apply inserts_only_requiresGc in E; [|frame].
  rewrite E. reflexivity.
Qed.

Lemma fromCArray_sets_gc type elementsPtr length ctx v ctx' :
  ArrayClassReference_fromCArray type elementsPtr length ctx = (inr v, ctx') ->
  requiresGc ctx' = true.
Proof.
  unfold ArrayClassReference_fromCArray, mbind at 1 2, M_bind. simpl.
  match goal with |- context [match ?m ctx with _ => _ end] =>
    destruct (m ctx) as [[e|fn] ctx1]
  end; [discriminate|].
  unfold mbind, M_bind. simpl. intros [= _ <-]. reflexivity.
Qed.

Lemma getConstructor_sets_gc newExpression ctx fn ctx' :
  ArrayClassReference_getConstructor newExpression ctx = (inr fn, ctx') ->
  requiresGc ctx' = true.
Proof.
  unfold ArrayClassReference_getConstructor, mbind, M_bind. simpl.
  intros [= _ <-]. reflexivity.
Qed.

(** C4: each entry point that constructs an array (from a literal list of
    elements, from a C buffer and its length, and the resolution of the
    constructor of a new-expression) has set the GC-required flag of the
    context when it returns. *)
Theorem array_construction_requires_gc :
  (forall type elements ctx v ctx',
     ArrayClassReference_fromLiteral type elements ctx = (inr v, ctx') ->
     requiresGc ctx' = true) /\
  (forall type elementsPtr length ctx v ctx',
     ArrayClassReference_fromCArray type elementsPtr length ctx = (inr v, ctx') ->
     requiresGc ctx' = true) /\
  (forall newExpression ctx fn ctx',
     ArrayClassReference_getConstructor newExpression ctx = (inr fn, ctx') ->
     requiresGc ctx' = true).
Proof.
  split; [|split].
  - apply fromLiteral_sets_gc.
  - apply fromCArray_sets_gc.
  - apply getConstructor_sets_gc.
Qed.

(** C5: the GC-required flag is monotonic.  Whatever steps a compilation
    runs, if the flag reads true after some of them it reads true after
    any further steps, failing or not; and once a step that constructs an
    array has returned, the flag reads true after any further steps. *)
Theorem requiresGc_monotonic (before after : list GenerationStep)
    (ctx : CodeGenerationContext) :
  (requiresGc (runSteps before ctx).2 = true ->
   requiresGc (runSteps (before ++ after) ctx).2 = true) /\
  (forall step,
     constructsArray step = true ->
     (runStep step ctx).1 = inr tt ->
     requiresGc (runSteps (step :: after) ctx).2 = true).
Proof.
  split.
  - rewrite runSteps_app.
    destruct (runSteps before ctx) as [[e|[]] ctx1]; simpl; [auto|].
    apply keeps_gc_runSteps.
  - intros step Hstep Hok. simpl. unfold mbind at 1, M_bind.
    destruct (runStep step ctx) as [[e|[]] ctx1] eqn:Hrun; [discriminate|].
    apply keeps_gc_runSteps.
    destruct step; try discriminate; simpl in Hrun;
      unfold mbind, M_bind in Hrun.
    + destruct (ArrayClassReference_fromLiteral _ _ ctx) as [[e|v] c] eqn:E;
        [discriminate|]. injection Hrun as <-. eapply fromLiteral_sets_gc, E.
    + destruct (ArrayClassReference_fromCArray _ _ _ ctx) as [[e|v] c] eqn:E;
        [discriminate|]. injection Hrun as <-. eapply fromCArray_sets_gc, E.
    + destruct (ArrayClassReference_getConstructor _ ctx) as [[e|v] c] eqn:E;
        [discriminate|]. injection Hrun as <-. eapply getConstructor_sets_gc, E.
Qed.

(** * Array layout *)

(** One call of [getLLVMType], returning or throwing, keeps the cache
    laid out. *)
Lemma cache_laid_out_getLLVMType (this : ArrayClassReference) (type : TsType) :
  cache_laid_out this ->
  cache_laid_out (ArrayClassReference_getLLVMType this type).2.
Proof.
  intros Hwf. unfold ArrayClassReference_getLLVMType.
  fold (cachedElementType type). set (key := cachedElementType type).
  destruct (llvmTypes this !! key) as [existing|] eqn:Hkey; [exact Hwf|].
  assert (forall ty id,
            key <> ty -> llvmTypes this !! ty = Some id ->
            forall (s : StructType) (declared : list StructType),
              (forall j, (j < length (structTypes this))%nat ->
                         declared !! j = structTypes this !! j) ->
              (length (structTypes this) < length declared)%nat ->
              (id < length declared)%nat /\
              forall e,
                getLLVMArrayElementType ty = inr e ->
                (s' ← declared !! id; struct_body s')
                = Some [PointerTy e; PointerTy e; Int32Ty]) as Hold.
  { intros ty id Hne Hl s declared Hsame Hlonger.
    destruct (Hwf ty id Hl) as [Hlt Hbody]. split; [lia|].
    intros e He. rewrite (Hsame id Hlt). exact (Hbody e He). }
  destruct (getLLVMArrayElementType key) as [f|e] eqn:He; cbn [snd];
    intros ty id Hl; cbn [llvmTypes structTypes structBody] in *.
  - destruct (decide (key = ty)) as [<-|Hne].
    + rewrite lookup_insert_eq in Hl. injection Hl as <-.
      rewrite length_app. cbn. split; [lia|].
      intros e He'. rewrite He in He'. discriminate.
    + rewrite lookup_insert_ne in Hl by exact Hne.
      apply (Hold ty id Hne Hl {| struct_name := ""; struct_body := None |}).
      * intros j Hj. apply lookup_app_l, Hj.
      * rewrite length_app. cbn. lia.
  - destruct (decide (key = ty)) as [<-|Hne].
    + rewrite lookup_insert_eq in Hl. injection Hl as <-.
      rewrite length_insert, length_app. cbn. split; [lia|].
      intros e' He'. rewrite He in He'. injection He' as <-.
      rewrite list_lookup_insert_eq; [reflexivity|].
      rewrite length_app. cbn. lia.
    + rewrite lookup_insert_ne in Hl by exact Hne.
      apply (Hold ty id Hne Hl {| struct_name := ""; struct_body := None |}).
      * intros j Hj. rewrite list_lookup_insert_ne by lia.
        apply lookup_app_l, Hj.
      * rewrite length_insert, length_app. cbn. lia.
Qed.

(** Every state of an [ArrayClassReference] has its cache laid out. *)
Lemma cache_laid_out_reachable (this : ArrayClassReference) :
  reachable this -> cache_laid_out this.
Proof.
  induction 1 as [|this type _ IH].
  - intros ty id Hl. cbn in Hl. rewrite lookup_empty in Hl. discriminate.
  - apply cache_laid_out_getLLVMType, IH.
Qed.

(** [getLLVMType] returns for every array type whose element type has a
    storage type, and the struct type it returns is cached for the
    element type. *)
Lemma getLLVMType_returns (this : ArrayClassReference) (type : TsType)
    (e : llvmType) :
  getLLVMArrayElementType (cachedElementType type) = inr e ->
  exists id,
    (ArrayClassReference_getLLVMType this type).1 = inr (StructTy id) /\
    llvmTypes (ArrayClassReference_getLLVMType this type).2
      !! cachedElementType type = Some id /\
    llvmTypes this ⊆ llvmTypes (ArrayClassReference_getLLVMType this type).2.
Proof.
  intros He. unfold ArrayClassReference_getLLVMType.
  fold (cachedElementType type). set (key := cachedElementType type) in *.
  destruct (llvmTypes this !! key) as [existing|] eqn:Hkey.
  - exists existing. split; [reflexivity|]. split; [exact Hkey | reflexivity].
  - rewrite He. eexists. split; [reflexivity|]. cbn [snd llvmTypes].
    split; [apply lookup_insert_eq | apply insert_subseteq, Hkey].
Qed.

(** C8: the storage of the elements of an array is chosen from the
    static type of the element, taken without nullability when it is a
    maybe-object type.  A reference (object) type, nullable or not, is
    stored indirectly, as an [i8*]; a primitive type is stored inline, as
    a value: a boolean-like one as an [i8], any other as the low-level
    type of the element type itself.  From the creation of the class
    reference on, whatever calls came before and whether they failed,
    [getLLVMType] returns for every array type whose element type has a
    storage type, and the struct type it returns is two pointers to the
    storage type and an [i32] length; so two array types whose element
    types have the same storage type get the same layout. *)
Theorem array_layout_by_element_type :
  (forall tsElementType : TsType,
     let t := if isMaybeObjectType tsElementType
              then getNonNullableType tsElementType else tsElementType in
     (hasFlag t TypeFlags_Object = true ->
        getLLVMArrayElementType tsElementType = inr (PointerTy Int8Ty)) /\
     (hasFlag t TypeFlags_Object = false ->
      hasFlag t TypeFlags_BooleanLike = true ->
        getLLVMArrayElementType tsElementType = inr Int8Ty) /\
     (hasFlag t TypeFlags_Object = false ->
      hasFlag t TypeFlags_BooleanLike = false ->
        getLLVMArrayElementType tsElementType = toLLVMType t)) /\
  (forall (this : ArrayClassReference) (type : TsType) (e : llvmType),
     reachable this ->
     getLLVMArrayElementType (cachedElementType type) = inr e ->
     exists id this',
       ArrayClassReference_getLLVMType this type = (inr (StructTy id), this') /\
       structBody this' (StructTy id)
       = Some [PointerTy e; PointerTy e; Int32Ty]) /\
  (forall (this : ArrayClassReference) (type1 type2 : TsType) (e : llvmType),
     reachable this ->
     getLLVMArrayElementType (cachedElementType type1) = inr e ->
     getLLVMArrayElementType (cachedElementType type2) = inr e ->
     exists id1 id2 this1 this2,
       ArrayClassReference_getLLVMType this type1
       = (inr (StructTy id1), this1) /\
       ArrayClassReference_getLLVMType this1 type2
       = (inr (StructTy id2), this2) /\
       structBody this2 (StructTy id1)
       = Some [PointerTy e; PointerTy e; Int32Ty] /\
       structBody this2 (StructTy id2)
       = Some [PointerTy e; PointerTy e; Int32Ty]).
Proof.
  split; [|split].
  - intros tsElementType t. unfold getLLVMArrayElementType. fold t.
    repeat split.
    + intros ->. reflexivity.
    + intros -> ->. reflexivity.
    + intros -> ->. reflexivity.
  - intros this type e Hreach He.
    destruct (getLLVMType_returns this type e He) as (id & Hrun & Hid & _).
    pose proof (cache_laid_out_reachable _ (reachable_getLLVMType _ type Hreach))
      as Hwf.
    destruct (ArrayClassReference_getLLVMType this type) as [r this'].
    cbn [fst snd] in *. subst r. exists id, this'.
    split; [reflexivity|]. exact (proj2 (Hwf _ _ Hid) e He).
  - intros this type1 type2 e Hreach He1 He2.
    destruct (getLLVMType_returns this type1 e He1) as (id1 & Hrun1 & Hid1 & _).
    pose proof (reachable_getLLVMType _ type1 Hreach) as Hreach1.
    destruct (ArrayClassReference_getLLVMType this type1) as [r1 this1].
    cbn [fst snd] in *. subst r1.
    destruct (getLLVMType_returns this1 type2 e He2)
      as (id2 & Hrun2 & Hid2 & Hsub).
    pose proof (cache_laid_out_reachable _ (reachable_getLLVMType _ type2 Hreach1))
      as Hwf.
    destruct (ArrayClassReference_getLLVMType this1 type2) as [r2 this2]
      eqn:Hcall2.
    cbn [fst snd] in *. subst r2. exists id1, id2, this1, this2.
    split; [reflexivity|]. split; [exact Hcall2|]. split.
    + exact (proj2 (Hwf _ _ (lookup_weaken _ _ _ _ Hid1 Hsub)) e He1).
    + exact (proj2 (Hwf _ _ Hid2) e He2).
Qed.

(** * Mangled names *)


(** * The Math object *)

(** C3: a member of the Math object whose name is none of the supported
    methods (pow, sqrt, log, sin, cos, max) and is not the property PI
    yields no reference: as a method and as a property the access fails
    with the UnsupportedBuiltIn diagnostic, which names the object, Math,
    and the member.  The context is left as it was. *)
Theorem math_unknown_member_fails (this : Value) (symbol : Symbol)
    (signatures : list Signature) (access : PropertyAccessExpression)
    (ctx : CodeGenerationContext) :
  symbol_name symbol ∉ ["pow"; "sqrt"; "log"; "sin"; "cos"; "max"; "PI"] ->
  (exists d,
     MathObjectReference_createFunctionFor this symbol signatures access ctx
     = (inl d, ctx) /\
     diagnosticKind d = Some UnsupportedBuiltIn /\
     diagnosticLocation d = Some (access_pos access) /\
     diagnosticMember d = Some ("Math", symbol_name symbol)) /\
  (exists d,
     MathObjectReference_createPropertyReference this symbol access ctx
     = (inl d, ctx) /\
     diagnosticKind d = Some UnsupportedBuiltIn /\
     diagnosticLocation d = Some (access_pos access) /\
     diagnosticMember d = Some ("Math", access_name access)).
Proof.
  intros Hname. split.
  - unfold MathObjectReference_createFunctionFor.
    rewrite bool_decide_eq_false_2.
    + eexists. split; [reflexivity|]. repeat split.
    + intros Hin. apply Hname.
      rewrite !elem_of_cons, elem_of_nil in Hin.
      rewrite !elem_of_cons. tauto.
  - unfold MathObjectReference_createPropertyReference.
    rewrite bool_decide_eq_false_2.
    + eexists. split; [reflexivity|]. repeat split.
    + intros Heq. apply Hname. rewrite Heq.
      rewrite !elem_of_cons. auto 10.
Qed.

(** C2: [Math.pow] passes both arguments through the conversion to
    number before it emits the call, whatever their static types, integer-like
    ones included: the code of the conversion of the base, then the code
    of the conversion of the exponent, then the call, whose first two
    operands are the converted values.  The call carries the attribution
    readnone and noUnwind. *)
Theorem pow_converts_operands_and_is_pure
    (lhs : Value) (lhsType : TsType) (rhs : Value) (rhsType : TsType)
    (numberType : TsType) (ctx ctx0 : CodeGenerationContext)
    (mathSymbol : Symbol) (mathAllocation mathObject : Value)
    (powSignature : Signature) (codeA codeB : list llvmValue)
    (a b : llvmValue) :
  builtIns ctx !! "Math" = Some mathSymbol ->
  scope ctx !! symbol_id mathSymbol = Some mathAllocation ->
  dereference mathAllocation ctx = (inr mathObject, ctx0) ->
  signatureOfProperty (Value_type mathObject) "pow" = Some powSignature ->
  Primitive_toNumber lhs lhsType numberType = (codeA, inr a) ->
  Primitive_toNumber rhs rhsType numberType = (codeB, inr b) ->
  exists name operands ctx',
    let call := Call name operands {| readnone := true; noUnwind := true |} in
    MathObjectReference_pow lhs lhsType rhs rhsType numberType ctx
    = (inr (context_value call (sig_returnType powSignature)), ctx') /\
    take 2 operands = [a; b] /\
    instructions ctx' = instructions ctx0 ++ codeA ++ codeB ++ [call].
Proof.
  intros Hmath Hscope Hderef Hsig Ha Hb.
  unfold MathObjectReference_pow, mbind at 1, M_bind. simpl.
  rewrite Hmath. simpl. rewrite Hscope.
  unfold mbind at 1, M_bind. rewrite Hderef, Hsig.
  unfold emitted, mbind, M_bind. rewrite Ha, Hb. simpl.
  unfold invokeRuntime, mbind, M_bind. simpl.
  eexists _, _, _. split; [reflexivity|]. split.
  - destruct (sig_variadic powSignature); reflexivity.
  - simpl. rewrite <- !app_assoc. reflexivity.
Qed.

(** * More on the struct types of arrays *)

(** X9: the struct type of an array type is created once.  After
    [getLLVMType] has returned a struct type, it returns the same struct
    type, and changes nothing, for every array type with the same element
    type, nullability of a maybe-object element type apart. *)
Theorem getLLVMType_cached (this this1 : ArrayClassReference)
    (type1 type2 : TsType) (t1 : llvmType) :
  ArrayClassReference_getLLVMType this type1 = (inr t1, this1) ->
  cachedElementType type1 = cachedElementType type2 ->
  ArrayClassReference_getLLVMType this1 type2 = (inr t1, this1).
Proof.
  unfold ArrayClassReference_getLLVMType.
  fold (cachedElementType type1). fold (cachedElementType type2).
  intros Hrun <-. set (key := cachedElementType type1) in *.
  destruct (llvmTypes this !! key) as [existing|] eqn:Hkey.
  - injection Hrun as <- <-. rewrite Hkey. reflexivity.
  - destruct (getLLVMArrayElementType key); [discriminate|].
    injection Hrun as <- <-. cbn [llvmTypes].
    rewrite lookup_insert_eq. reflexivity.
Qed.

(** X10: a failure leaves its forward declaration in the cache.  When
    the element type of an array type is not cached and has no low-level
    storage type, [getLLVMType] fails; asked again for the same array
    type, it does not fail but returns the struct type it had declared,
    which has no body. *)
Theorem getLLVMType_failure_is_cached (this : ArrayClassReference)
    (type : TsType) (f : Failure) :
  llvmTypes this !! cachedElementType type = None ->
  getLLVMArrayElementType (cachedElementType type) = inl f ->
  exists this1,
    let declared := StructTy (length (structTypes this)) in
    ArrayClassReference_getLLVMType this type = (inl f, this1) /\
    ArrayClassReference_getLLVMType this1 type = (inr declared, this1) /\
    structTypes this1 !! length (structTypes this)
    = Some {| struct_name := "class.Array"; struct_body := None |} /\
    structBody this1 declared = None.
Proof.
  intros Hmiss Hfail. unfold ArrayClassReference_getLLVMType.
  fold (cachedElementType type). rewrite Hmiss, Hfail.
  eexists. cbv zeta. split; [reflexivity|]. cbn [llvmTypes structTypes].
  rewrite lookup_insert_eq. split; [reflexivity|].
  assert (forall (l : list StructType) x, (l ++ [x]) !! length l = Some x) as Hlast.
  { intros l x. rewrite lookup_app_r by lia. rewrite Nat.sub_diag. reflexivity. }
  unfold structBody. cbn [structTypes]. rewrite Hlast. split; reflexivity.
Qed.

Lemma cache_distinct_getLLVMType (this : ArrayClassReference) (type : TsType) :
  cache_distinct this ->
  cache_distinct (ArrayClassReference_getLLVMType this type).2.
Proof.
  intros [Hrange Hinj]. unfold ArrayClassReference_getLLVMType.
  fold (cachedElementType type). set (key := cachedElementType type).
  destruct (llvmTypes this !! key) as [existing|] eqn:Hkey; [split; assumption|].
  assert (cache_distinct
            {| llvmTypes := <[key := length (structTypes this)]> (llvmTypes this);
               structTypes :=
                 structTypes this
                 ++ [{| struct_name := "class.Array"; struct_body := None |}] |})
    as [Hrange' Hinj'].
  { split; cbn [llvmTypes structTypes].
    - intros k id Hk. rewrite length_app. cbn [length].
      rewrite lookup_insert in Hk. destruct (decide (key = k)).
      + injection Hk as <-. lia.
      + specialize (Hrange k id Hk). lia.
    - intros k1 k2 id Hk1 Hk2.
      rewrite lookup_insert in Hk1, Hk2.
      destruct (decide (key = k1)) as [<-|], (decide (key = k2)) as [<-|];
        try reflexivity.
      + injection Hk1 as <-. specialize (Hrange k2 _ Hk2). lia.
      + injection Hk2 as <-. specialize (Hrange k1 _ Hk1). lia.
      + eapply Hinj; eassumption. }
  destruct (getLLVMArrayElementType key); cbn [snd];
    split; cbn [llvmTypes structTypes]; try assumption.
  intros k id Hk. rewrite length_insert. exact (Hrange' k id Hk).
Qed.

(** X11: no struct type serves two element types.  [getLLVMType],
    failing or not, keeps every cached struct type declared and cached
    for one element type only, so that two array types whose element
    types differ never get the same struct type. *)
Theorem getLLVMType_distinct (this this1 this2 : ArrayClassReference)
    (type1 type2 : TsType) (t1 t2 : llvmType) :
  cache_distinct this ->
  ArrayClassReference_getLLVMType this type1 = (inr t1, this1) ->
  ArrayClassReference_getLLVMType this1 type2 = (inr t2, this2) ->
  cachedElementType type1 <> cachedElementType type2 ->
  cache_distinct this2 /\ t1 <> t2.
Proof.
  intros Hwf Hrun1 Hrun2 Hne.
  pose proof (cache_distinct_getLLVMType this type1 Hwf) as Hwf1.
  rewrite Hrun1 in Hwf1. cbn [snd] in Hwf1.
  pose proof (cache_distinct_getLLVMType this1 type2 Hwf1) as Hwf2.
  rewrite Hrun2 in Hwf2. cbn [snd] in Hwf2.
  split; [exact Hwf2|].
  assert (forall a ty t b,
            ArrayClassReference_getLLVMType a ty = (inr t, b) ->
            llvmTypes a ⊆ llvmTypes b /\
            exists id, t = StructTy id /\
                       llvmTypes b !! cachedElementType ty = Some id) as Hcached.
  { intros a ty t b. unfold ArrayClassReference_getLLVMType.
    fold (cachedElementType ty).
    destruct (llvmTypes a !! cachedElementType ty) as [existing|] eqn:Hkey.
    - intros [= <- <-]. split; [reflexivity|]. eauto.
    - destruct (getLLVMArrayElementType _); [discriminate|].
      intros [= <- <-]. cbn [llvmTypes]. split.
      + apply insert_subseteq, Hkey.
      + eexists. split; [reflexivity|]. apply lookup_insert_eq. }
  destruct (Hcached _ _ _ _ Hrun1) as (_ & id1 & -> & Hid1).
  destruct (Hcached _ _ _ _ Hrun2) as (Hsub & id2 & -> & Hid2).
  intros [= <-]. apply Hne.
  destruct Hwf2 as [_ Hinj]. eapply Hinj; [|exact Hid2].
  eapply lookup_weaken; eassumption.
Qed.

(** * More on the construction of arrays from a C array *)

(** X12: the constructor of an array type is declared once.  When
    [fromCArray] has returned for an array type, the module holds the
    constructor, always inlined if this call declared it, and every
    further call for that type succeeds, leaves the functions of the
    module as they are and inserts one instruction, the call of that
    constructor with the pointer and the length it is given. *)
Theorem fromCArray_declares_once (type : TsType)
    (elementsPtr length elementsPtr' length' : llvmValue) (v : Value)
    (ctx ctx1 : CodeGenerationContext) :
  ArrayClassReference_fromCArray type elementsPtr length ctx = (inr v, ctx1) ->
  let name := mangleMethodName type "constructor" [type] in
  exists fn,
    functions ctx1 !! name = Some fn /\
    (functions ctx !! name = None ->
       fn_name fn = name /\ fn_alwaysInline fn = true /\
       functions ctx1 = <[name := fn]> (functions ctx)) /\
    (forall fn', functions ctx !! name = Some fn' ->
       fn = fn' /\ functions ctx1 = functions ctx) /\
    exists ctx2,
      let call := Call (fn_name fn) [elementsPtr'; length']
                    {| readnone := false; noUnwind := false |} in
      ArrayClassReference_fromCArray type elementsPtr' length' ctx1
      = (inr (context_value call type), ctx2) /\
      functions ctx2 = functions ctx1 /\
      instructions ctx2 = instructions ctx1 ++ [call].
Proof.
  cbv zeta. unfold ArrayClassReference_fromCArray.
  set (name := mangleMethodName type "constructor" [type]).
  unfold mbind at 1 2 3, M_bind. cbn [get_context].
  destruct (functions ctx !! name) as [fn0|] eqn:Hfn.
  - unfold mbind, M_bind. cbn. intros [= <- <-]. cbn.
    exists fn0. split; [exact Hfn|]. split; [discriminate|].
    split; [intros fn' [= <-]; split; reflexivity|].
    rewrite Hfn. cbn. eexists. repeat split.
  - destruct (getLLVMArrayElementType (getArrayElementType type))
      as [f|elementType]; [discriminate|].
    unfold context_toLLVMType, mbind, M_bind.
    destruct (toLLVMType type) as [f|arrayType]; [discriminate|].
    cbn. intros [= <- <-]. cbn.
    eexists. split; [apply lookup_insert_eq|].
    split; [intros _; repeat split|]. split; [discriminate|].
    rewrite lookup_insert_eq. cbn. eexists. repeat split.
Qed.

(** X13: a failure of [fromCArray] is clean.  When the constructor is not
    declared and the element type has no low-level storage type, or the
    array type has no low-level type, [fromCArray] fails with the failure
    of the type lookup and leaves the context as it was: no function is
    declared, no call is inserted and the GC-required flag is not
    raised. *)
Theorem fromCArray_fails_cleanly (type : TsType)
    (elementsPtr length : llvmValue) (ctx : CodeGenerationContext)
    (f : Failure) :
  functions ctx !! mangleMethodName type "constructor" [type] = None ->
  getLLVMArrayElementType (getArrayElementType type) = inl f \/
  ((exists elementType,
      getLLVMArrayElementType (getArrayElementType type) = inr elementType) /\
   toLLVMType type = inl f) ->
  ArrayClassReference_fromCArray type elementsPtr length ctx = (inl f, ctx).
Proof.
  intros Hfn Hfail. unfold ArrayClassReference_fromCArray.
  unfold mbind at 1 2 3, M_bind. cbn [get_context]. rewrite Hfn.
  destruct Hfail as [->|[[elementType ->] Htype]]; [reflexivity|].
  unfold context_toLLVMType, mbind, M_bind. rewrite Htype. reflexivity.
Qed.

(** * More on the Math object *)

(** X14: the methods and the property of the Math object are told apart
    by name alone.  A method reference is created exactly for pow, sqrt,
    log, sin, cos and max, and it carries the signatures given and the
    attribution readnone and noUnwind; a property reference is created
    exactly for PI, and it is read-only and computed by the runtime.  No
    name yields both, and neither changes the context. *)
Theorem math_members_by_name (this : Value) (symbol : Symbol)
    (signatures : list Signature) (access : PropertyAccessExpression)
    (ctx : CodeGenerationContext) :
  let method :=
    MathObjectReference_createFunctionFor this symbol signatures access ctx in
  let property :=
    MathObjectReference_createPropertyReference this symbol access ctx in
  (symbol_name symbol ∈ ["pow"; "sqrt"; "log"; "sin"; "cos"; "max"] <->
   method = (inr (UnresolvedMethodReference this signatures
                    {| readnone := true; noUnwind := true |}), ctx)) /\
  (symbol_name symbol = "PI" <->
   property = (inr {| property_access := access;
                      property_object := this;
                      property_readonly := true;
                      property_fromRuntime := true |}, ctx)) /\
  (forall m p, method.1 = inr m -> property.1 = inr p -> False) /\
  method.2 = ctx /\ property.2 = ctx.
Proof.
  cbv zeta. unfold MathObjectReference_createFunctionFor,
    MathObjectReference_createPropertyReference, throwUnsupportedBuiltIn.
  destruct (decide (symbol_name symbol ∈ ["pow"; "sqrt"; "log"; "sin"; "cos"; "max"]))
    as [Hm|Hm];
  destruct (decide (symbol_name symbol = "PI")) as [Hp|Hp];
  rewrite ?(bool_decide_eq_true_2 _ Hm), ?(bool_decide_eq_false_2 _ Hm),
          ?(bool_decide_eq_true_2 _ Hp), ?(bool_decide_eq_false_2 _ Hp).
  - exfalso. rewrite Hp in Hm. rewrite !elem_of_cons, elem_of_nil in Hm.
    destruct Hm as [?|[?|[?|[?|[?|[?|[]]]]]]]; discriminate.
  - repeat split; try tauto; try discriminate.
  - repeat split; try tauto; try discriminate.
  - repeat split; try tauto; try discriminate.
Qed.

(** * Arrays of values on the stack *)

Lemma inserting_inserting st code1 code2 :
  inserting (inserting st code1) code2 = inserting st (code1 ++ code2).
Proof. unfold inserting. cbn. rewrite app_assoc. reflexivity. Qed.

Lemma storeElements_spec (allocation : ArrayValue) (elementType : llvmType)
    (i : nat) (rest : list llvmValue) (st : ArrayHelperContext) :
  storeElements allocation elementType i rest st
  = (inr tt,
     inserting st
       (concat (imap (fun j => storeOf allocation elementType (i + j)) rest))).
Proof.
  revert i st. induction rest as [|element rest IH]; intros i st.
  - cbn. unfold inserting. rewrite app_nil_r. destruct st; reflexivity.
  - cbn [storeElements]. unfold mbind, MH_bind, helper_insert.
    rewrite IH. cbn [imap concat].
    assert (concat (imap (fun j => storeOf allocation elementType (S i + j)) rest)
            = concat (imap ((fun j => storeOf allocation elementType (i + j)) ∘ S)
                        rest)) as ->.
    { f_equal. apply imap_ext. intros j x _. cbn. f_equal. lia. }
    unfold inserting. cbn. rewrite Nat.add_0_r, <- !app_assoc. reflexivity.
Qed.

(** X15: an array of values that are not all constants is filled element
    by element.  [llvmArrayValue] allocates one array of as many
    elements in the entry block, returns the pointer to its first
    element, and asks the builder, after the computation of that
    pointer, for one address computation and one store for each element,
    in order: the store at index [i] stores the element at index [i].
    It creates no global variable and declares no function. *)
Theorem llvmArrayValue_stores_elements (values : list llvmValue)
    (elementType : llvmType) (name : option string)
    (st : ArrayHelperContext) :
  values <> [] ->
  forallb isConstant values = false ->
  let allocation := AllocaInst elementType (length values) name in
  let array :=
    InBoundsGEP allocation [ConstantInt (Num 0); ConstantInt (Num 0)] name in
  let outcome := llvmArrayValue (inl values) elementType name st in
  outcome.1 = inr array /\
  helper_entryBlock outcome.2 = helper_entryBlock st ++ [allocation] /\
  helper_globals outcome.2 = helper_globals st /\
  helper_context outcome.2 = helper_context st /\
  helper_instructions outcome.2
  = helper_instructions st
    ++ array :: concat (imap (storeOf allocation elementType) values) /\
  length (List.filter isStore
            (drop (length (helper_instructions st))
               (helper_instructions outcome.2)))
  = length values.
Proof.
  intros Hne Hconst. cbv zeta.
  destruct values as [|v values]; [contradiction|].
  unfold llvmArrayValue, allocateLlvmArrayWith. cbv zeta.
  rewrite Hconst.
  unfold mbind, MH_bind, mret, MH_ret, createAllocaInstInEntryBlock,
    helper_insert.
  rewrite storeElements_spec. cbn [fst snd inserting helper_entryBlock
    helper_globals helper_context helper_instructions].
  repeat split.
  - rewrite <- app_assoc. reflexivity.
  - rewrite <- app_assoc. rewrite drop_app_length.
    generalize (AllocaInst elementType (length (v :: values)) name).
    intros allocation. cbn [app List.filter isStore].
    generalize (v :: values). intros l.
    assert (forall k, length (List.filter isStore
              (concat (imap (fun j => storeOf allocation elementType (k + j)) l)))
            = length l) as Hcount.
    { induction l as [|x l IH]; intros k; [reflexivity|].
      cbn [imap concat]. rewrite List.filter_app, length_app.
      cbn [storeOf List.filter isStore length]. f_equal.
      rewrite <- (IH (S k)). do 3 f_equal.
      apply imap_ext. intros j y _. cbn. f_equal. lia. }
    exact (Hcount 0%nat).
Qed.

Lemma lift_getOrInsertFunction (name : string) (type : llvmType)
    (st : ArrayHelperContext) :
  let declared :=
    {| fn_name := name; fn_type := type; fn_alwaysInline := false |} in
  lift (getOrInsertFunction name type) st
  = (inr (default declared (functions (helper_context st) !! name)),
     {| helper_context :=
          match functions (helper_context st) !! name with
          | Some _ => helper_context st
          | None => (add_function declared (helper_context st)).2
          end;
        helper_entryBlock := helper_entryBlock st;
        helper_globals := helper_globals st;
        helper_instructions := helper_instructions st |}).
Proof.
  cbv zeta.
  unfold lift, getOrInsertFunction, mbind, M_bind. cbn [get_context].
  destruct (functions (helper_context st) !! name) as [fn|] eqn:Hfn;
    cbn; rewrite drop_all; cbn; rewrite app_nil_r; reflexivity.
Qed.

Lemma MH_bind_inr {A B} (m : MH A) (k : A -> MH B) st a st' :
  m st = (inr a, st') -> (m ≫= k) st = k a st'.
Proof. intros E. unfold mbind, MH_bind. rewrite E. reflexivity. Qed.

(** X16: an array of constants is copied, not stored.  When all the
    values are constants, [llvmArrayValue] allocates the array in the
    entry block, creates one private constant global variable
    initialized with the values in order, and asks the builder for the
    pointer to the first element, the two casts and one call of the
    memcpy intrinsic from the global to the allocation, and for no
    store.  The intrinsic is a function of the module afterwards. *)
Theorem llvmArrayValue_copies_constants (values : list llvmValue)
    (elementType : llvmType) (name : option string)
    (st : ArrayHelperContext) :
  values <> [] ->
  forallb isConstant values = true ->
  let allocation := AllocaInst elementType (length values) name in
  let array :=
    InBoundsGEP allocation [ConstantInt (Num 0); ConstantInt (Num 0)] name in
  let global := Global (length (helper_globals st)) in
  let outcome := llvmArrayValue (inl values) elementType name st in
  outcome.1 = inr array /\
  helper_entryBlock outcome.2 = helper_entryBlock st ++ [allocation] /\
  (exists g,
     helper_globals outcome.2 = helper_globals st ++ [g] /\
     global_initializer g = values /\
     global_elementType g = elementType /\
     global_numElements g = length values /\
     global_isConstant g = true /\
     global_privateLinkage g = true) /\
  (exists memcpy,
     functions (helper_context outcome.2) !! "llvm.memcpy.p0i8.p0i8.i32"
     = Some memcpy /\
     helper_instructions outcome.2
     = helper_instructions st
       ++ [array;
           BitCast allocation (PointerTy Int8Ty);
           BitCast global (PointerTy Int8Ty);
           CallFunction (fn_name memcpy)
             [BitCast allocation (PointerTy Int8Ty);
              BitCast global (PointerTy Int8Ty);
              SizeOf elementType (length values);
              Generated (ConstantInt (Num 0));
              ConstantFalse]]) /\
  List.filter isStore
    (drop (length (helper_instructions st)) (helper_instructions outcome.2))
  = [].
Proof.
  intros Hne Hconst. cbv zeta.
  destruct values as [|v values]; [contradiction|].
  unfold llvmArrayValue, allocateLlvmArrayWith. cbv zeta.
  rewrite Hconst.
  unfold assignFromConstantArray.
  erewrite MH_bind_inr by reflexivity.
  erewrite MH_bind_inr by reflexivity.
  erewrite (MH_bind_inr (_ ≫= _)).
  2: { erewrite MH_bind_inr by reflexivity.
       erewrite MH_bind_inr by reflexivity.
       erewrite MH_bind_inr by reflexivity.
       erewrite MH_bind_inr by apply lift_getOrInsertFunction.
       erewrite MH_bind_inr by reflexivity.
       reflexivity. }
  unfold mret, MH_ret.
  cbn [fst snd helper_context helper_entryBlock helper_globals
       helper_instructions createAllocaInstInEntryBlock].
  split; [reflexivity|]. split; [reflexivity|].
  split; [eexists; repeat split|].
  split.
  - eexists. split; [|rewrite <- !app_assoc; reflexivity].
    destruct (functions (helper_context st) !! _) as [fn|] eqn:Hfn.
    + exact Hfn.
    + apply lookup_insert_eq.
  - rewrite <- !app_assoc. rewrite drop_app_length. reflexivity.
Qed.

Lemma generateElements_length (nodes : list Expression)
    (ctx ctx' : CodeGenerationContext) (values : list llvmValue) :
  generateElements nodes ctx = (inr values, ctx') ->
  length values = length nodes.
Proof.
  revert ctx ctx' values.
  induction nodes as [|node nodes IH]; intros ctx ctx' values.
  - intros [= <- _]. reflexivity.
  - cbn [generateElements]. unfold mbind, M_bind.
    destruct (generateValue node ctx) as [[f|value] ctx1]; [discriminate|].
    destruct (generateIR value ctx1) as [[f|v] ctx2]; [discriminate|].
    destruct (generateElements nodes ctx2) as [[f|vs] ctx3] eqn:Hrest;
      [discriminate|].
    intros [= <- _]. cbn. f_equal. eapply IH, Hrest.
Qed.

(** X17: the elements of an array of nodes are generated before anything
    is allocated.  If the generation of an element fails,
    [llvmArrayValue] fails with that failure and has allocated nothing
    and created no global variable; if it succeeds, there is one value
    for each node and the array is built from these values as from given
    values. *)
Theorem llvmArrayValue_generates_first (nodes : list Expression)
    (elementType : llvmType) (name : option string)
    (st : ArrayHelperContext) :
  nodes <> [] ->
  let generated := lift (generateElements nodes) st in
  let outcome := llvmArrayValue (inr nodes) elementType name st in
  (forall f, generated.1 = inl f ->
     outcome = (inl f, generated.2) /\
     helper_entryBlock outcome.2 = helper_entryBlock st /\
     helper_globals outcome.2 = helper_globals st) /\
  (forall values, generated.1 = inr values ->
     length values = length nodes /\
     outcome = llvmArrayValue (inl values) elementType name generated.2).
Proof.
  intros Hne. cbv zeta.
  destruct nodes as [|node nodes]; [contradiction|].
  unfold llvmArrayValue. unfold mbind, MH_bind.
  destruct (lift (generateElements (node :: nodes)) st) as [[f|values] st1]
    eqn:Hlift.
  - split; [|discriminate]. intros f' [= <-]. split; [reflexivity|].
    unfold lift in Hlift. injection Hlift as _ <-. split; reflexivity.
  - split; [discriminate|]. intros values' [= <-].
    assert (length values = length (node :: nodes)) as Hlen.
    { assert ((generateElements (node :: nodes) (helper_context st)).1
              = inr values) as Hvalues.
      { change ((lift (generateElements (node :: nodes)) st).1 = inr values).
        rewrite Hlift. reflexivity. }
      destruct (generateElements (node :: nodes) (helper_context st))
        as [r ctx'] eqn:Hrun.
      cbn [fst] in Hvalues. rewrite Hvalues in Hrun.
      eapply generateElements_length, Hrun. }
    split; [exact Hlen|].
    destruct values; [discriminate|]. reflexivity.
Qed.

End CodeGeneration.

(** * Compiler options *)

Lemma defaults_keys_NoDup : NoDup defaults.*1.
Proof. apply (bool_decide_unpack (NoDup defaults.*1)). vm_compute. exact I. Qed.

Lemma getProperty_insert (object : gmap string JsValue) (key key' : string)
    (v : JsValue) :
  getProperty (<[key := v]> object) key'
  = if decide (key = key') then v else getProperty object key'.
Proof.
  unfold getProperty. rewrite lookup_insert.
  destruct (decide (key = key')); reflexivity.
Qed.

(** The loop over the keys of the defaults, read at one key. *)
Lemma getProperty_applyDefaults (entries : list (string * JsValue))
    (object : gmap string JsValue) (key : string) :
  NoDup entries.*1 ->
  foldl applyDefault object entries !! key
  = match (list_to_map entries : gmap string JsValue) !! key with
    | Some d =>
        Some (if isUndefined (getProperty object key) then d
              else getProperty object key)
    | None => object !! key
    end.
Proof.
  revert object. induction entries as [|[k d] entries IH]; intros object Hnd.
  - reflexivity.
  - simpl in Hnd. apply NoDup_cons in Hnd as [Hk Hnd].
    simpl. rewrite (IH _ Hnd). unfold applyDefault at 1 2 3. simpl.
    rewrite lookup_insert.
    destruct (decide (k = key)) as [->|Hne].
    + rewrite (not_elem_of_list_to_map_1 entries key Hk).
      rewrite lookup_insert_eq. reflexivity.
    + rewrite getProperty_insert, decide_False by exact Hne.
      rewrite lookup_insert_ne by exact Hne. reflexivity.
Qed.

Lemma defaults_lookup_lib :
  (list_to_map defaults : gmap string JsValue) !! "lib" = None.
Proof. vm_compute. reflexivity. Qed.

Lemma initializeCompilerOptions_lookup (object : gmap string JsValue)
    (key : string) :
  initializeCompilerOptions object !! key = initializedOption object key.
Proof.
  unfold initializeCompilerOptions, initializedOption. cbv zeta.
  set (filled := foldl applyDefault object defaults).
  assert (getProperty
            (<["noImplicitReturns" := JsBoolean true]>
               (<["noImplicitAny" := JsBoolean true]>
                  (<["strictNullChecks" := JsBoolean true]> filled))) "lib"
          = getProperty object "lib") as ->.
  { rewrite !getProperty_insert, !decide_False by discriminate.
    unfold getProperty, filled.
    rewrite (getProperty_applyDefaults _ _ "lib" defaults_keys_NoDup).
    rewrite defaults_lookup_lib. reflexivity. }
  rewrite lookup_insert. destruct (decide ("lib" = key)) as [<-|Hlib].
  { rewrite decide_True by reflexivity. reflexivity. }
  rewrite decide_False by congruence.
  rewrite !lookup_insert.
  destruct (decide (key ∈ _)) as [Hin|Hout].
  - rewrite !elem_of_cons, elem_of_nil in Hin.
    destruct Hin as [->|[->|[->|[]]]]; reflexivity.
  - rewrite !elem_of_cons, elem_of_nil in Hout.
    rewrite !decide_False by (intros <-; tauto).
    apply getProperty_applyDefaults, defaults_keys_NoDup.
Qed.

(** X1: initialization fills in exactly what is missing.  For each of the
    thirteen options with a default, a value the caller defined is kept
    and an undefined one becomes the default, so none of them is
    undefined afterwards; the three strictness options are true whatever
    the caller passed; [lib] is kept when truthy and is the ES2015
    library otherwise; any other option is as the caller left it. *)
Theorem initializeCompilerOptions_fills_defaults
    (compilerOptions : gmap string JsValue) :
  let initialized := initializeCompilerOptions compilerOptions in
  (forall key d, (key, d) ∈ defaults ->
     getProperty initialized key
     = (if isUndefined (getProperty compilerOptions key) then d
        else getProperty compilerOptions key) /\
     isUndefined (getProperty initialized key) = false) /\
  getProperty initialized "strictNullChecks" = JsBoolean true /\
  getProperty initialized "noImplicitAny" = JsBoolean true /\
  getProperty initialized "noImplicitReturns" = JsBoolean true /\
  getProperty initialized "lib"
  = (if truthy (getProperty compilerOptions "lib")
     then getProperty compilerOptions "lib"
     else JsArray [JsString "lib.es2015.d.ts"]) /\
  (forall key,
     key ∉ defaults.*1 ->
     key ∉ ["strictNullChecks"; "noImplicitAny"; "noImplicitReturns"; "lib"] ->
     initialized !! key = compilerOptions !! key).
Proof.
  cbv zeta. split; [|split; [|split; [|split; [|split]]]].
  - intros key d Hin.
    assert (getProperty (initializeCompilerOptions compilerOptions) key
            = if isUndefined (getProperty compilerOptions key) then d
              else getProperty compilerOptions key) as Hget.
    { unfold getProperty at 1.
      rewrite initializeCompilerOptions_lookup. unfold initializedOption.
      unfold defaults in Hin. rewrite !elem_of_cons, elem_of_nil in Hin.
      repeat (destruct Hin as [[= -> ->]|Hin]; [reflexivity|]).
      destruct Hin. }
    split; [exact Hget|]. rewrite Hget.
    destruct (isUndefined (getProperty compilerOptions key)) eqn:E;
      [|exact E].
    unfold defaults in Hin. rewrite !elem_of_cons, elem_of_nil in Hin.
    repeat (destruct Hin as [[= -> ->]|Hin]; [reflexivity|]).
    destruct Hin.
  - unfold getProperty. rewrite initializeCompilerOptions_lookup. reflexivity.
  - unfold getProperty. rewrite initializeCompilerOptions_lookup. reflexivity.
  - unfold getProperty. rewrite initializeCompilerOptions_lookup. reflexivity.
  - unfold getProperty at 1. rewrite initializeCompilerOptions_lookup.
    reflexivity.
  - intros key Hdefault Hforced.
    rewrite initializeCompilerOptions_lookup. unfold initializedOption.
    rewrite !elem_of_cons, elem_of_nil in Hforced.
    rewrite decide_False by tauto.
    rewrite decide_False
      by (rewrite !elem_of_cons, elem_of_nil; tauto).
    rewrite (not_elem_of_list_to_map_1 defaults key Hdefault). reflexivity.
Qed.

(** X2: initialization is idempotent: initializing options that are
    initialized changes nothing. *)
Theorem initializeCompilerOptions_idempotent
    (compilerOptions : gmap string JsValue) :
  initializeCompilerOptions (initializeCompilerOptions compilerOptions)
  = initializeCompilerOptions compilerOptions.
Proof.
  apply map_eq. intros key.
  rewrite !initializeCompilerOptions_lookup.
  assert (forall k,
            getProperty (initializeCompilerOptions compilerOptions) k
            = default JsUndefined (initializedOption compilerOptions k)) as Hget.
  { intros k. unfold getProperty.
    rewrite initializeCompilerOptions_lookup. reflexivity. }
  unfold initializedOption at 1. rewrite !Hget.
  destruct (decide (key = "lib")) as [->|Hlib].
  - unfold initializedOption. rewrite !decide_True by reflexivity.
    cbn [default from_option]. unfold id.
    destruct (truthy (getProperty compilerOptions "lib")) eqn:E.
    + cbv beta iota. rewrite E. reflexivity.
    + reflexivity.
  - unfold initializedOption.
    destruct (decide (key = "lib")); [contradiction|].
    destruct (decide (key ∈ _)); [reflexivity|].
    destruct ((list_to_map defaults : gmap string JsValue) !! key) as [d|] eqn:Hd.
    2: { rewrite initializeCompilerOptions_lookup. unfold initializedOption.
         rewrite !decide_False by assumption. rewrite Hd. reflexivity. }
    cbn [default from_option]. unfold id.
    destruct (isUndefined (getProperty compilerOptions key)) eqn:E.
    + apply elem_of_list_to_map_2 in Hd.
      unfold defaults in Hd. rewrite !elem_of_cons, elem_of_nil in Hd.
      repeat (destruct Hd as [[= -> ->]|Hd]; [reflexivity|]).
      destruct Hd.
    + cbv beta iota. rewrite E. reflexivity.
Qed.

(** * The primality test of the benchmark *)

Lemma int32_small (z : Z) : - 2 ^ 31 <= z < 2 ^ 31 -> int32 z = z.
Proof.
  intros Hz. unfold int32.
  change (2 ^ 31) with 2147483648 in *. change (2 ^ 32) with 4294967296.
  rewrite Z.mod_small by lia. lia.
Qed.

(** The loop finds the least divisor between [i] and the square root. *)
Lemma isPrime_loop_spec (fuel : nat) (value i : Z) :
  2 < value < 2 ^ 31 ->
  2 <= i ->
  (0 < fuel)%nat ->
  Z.sqrt value + 1 - i < Z.of_nat fuel ->
  exists b,
    isPrime_loop fuel value i = Some b /\
    (b = true <-> forall j, i <= j <= Z.sqrt value -> ~ (j | value)).
Proof.
  change (2 ^ 31) with 2147483648.
  intros Hvalue. revert i.
  induction fuel as [|fuel IH]; intros i Hi Hpos Hfuel.
  - lia.
  - cbn [isPrime_loop]. unfold sqrt_as_int.
    destruct (Z.leb_spec i (Z.sqrt value)) as [Hle|Hgt].
    + destruct (Z.eqb_spec (Z.rem value i) 0) as [Hrem|Hrem].
      * exists false. split; [reflexivity|]. split; [discriminate|].
        intros Hnone. exfalso. apply (Hnone i); [lia|].
        apply Z.rem_divide; [lia | exact Hrem].
      * assert (Z.sqrt value < value) by (apply Z.sqrt_lt_lin; lia).
        rewrite int32_small by (change (2 ^ 31) with 2147483648; lia).
        destruct (IH (i + 1)) as (b & Hb & Hspec); [lia | lia | lia |].
        exists b. split; [exact Hb|]. rewrite Hspec. split.
        -- intros Hnone j Hj. destruct (Z.eq_dec j i) as [->|Hne].
           ++ intros Hdiv. apply Hrem. apply Z.rem_divide; [lia | exact Hdiv].
           ++ apply Hnone. lia.
        -- intros Hnone j Hj. apply Hnone. lia.
    + exists true. split; [reflexivity|]. split; [|reflexivity].
      intros _ j Hj. lia.
Qed.

(** A number above 2 is prime when nothing from 2 to its square root
    divides it. *)
Lemma prime_by_trial_division (value : Z) :
  2 < value ->
  (forall j, 2 <= j <= Z.sqrt value -> ~ (j | value)) <-> Z.prime value.
Proof.
  intros Hvalue. split.
  - intros Hnone. split; [lia|]. intros n Hn [q Hq].
    assert (1 < q) by nia.
    destruct (Z.le_ge_cases n q) as [Hnq|Hqn].
    + apply (Hnone n).
      * split; [lia|]. apply Z.sqrt_le_square; nia.
      * exists q. exact Hq.
    + apply (Hnone q).
      * split; [lia|]. apply Z.sqrt_le_square; nia.
      * exists n. lia.
  - intros [_ Hp] j Hj.
    assert (Z.sqrt value < value) by (apply Z.sqrt_lt_lin; lia).
    apply Hp. lia.
Qed.

(** X3: [isPrime] returns, within as many turns as the square root of
    its argument, and for every [int] it answers that the argument is a
    prime other than 2: the test rejects everything up to 2, so 2 itself
    is reported as not prime. *)
Theorem isPrime_correct (fuel : nat) (value : Z) :
  - 2 ^ 31 <= value < 2 ^ 31 ->
  Z.sqrt value <= Z.of_nat fuel ->
  exists b,
    isPrime fuel value = Some b /\
    (b = true <-> Z.prime value /\ value <> 2).
Proof.
  change (2 ^ 31) with 2147483648.
  intros Hint Hfuel. unfold isPrime.
  destruct (Z.leb_spec value 2) as [Hsmall|Hbig].
  - exists false. split; [reflexivity|]. split; [discriminate|].
    intros [[Hgt _] Hne]. lia.
  - destruct (isPrime_loop_spec fuel value 2) as (b & Hb & Hspec);
      [change (2 ^ 31) with 2147483648; lia | lia | | lia |].
    { assert (1 <= Z.sqrt value) by (apply Z.sqrt_le_square; lia). lia. }
    exists b. split; [exact Hb|].
    rewrite Hspec, (prime_by_trial_division value Hbig). intuition lia.
Qed.


(** * The resolved function of a signature *)

(** The resolved parameter of a declared parameter and its symbol. *)
Lemma getResolvedParameters_loop_spec `{TypeChecker} (symbols : list Symbol)
    (i : nat) (rest : list ParameterDeclaration)
    (resolved : list (ResolvedFunctionParameter * Symbol)) :
  getResolvedParameters_loop symbols i rest resolved
  = if decide (length rest <= length (drop i symbols))%nat
    then inr (resolved ++ zip_with resolveParameter rest (drop i symbols))
    else inl (jsError "Cannot read property 'name' of undefined").
Proof.
  revert i resolved. induction rest as [|parameter rest IH]; intros i resolved.
  - cbn [getResolvedParameters_loop].
    destruct (decide _) as [_|Hgt]; [|cbn [length] in Hgt; lia].
    cbn [zip_with]. rewrite app_nil_r. reflexivity.
  - cbn [getResolvedParameters_loop].
    destruct (symbols !! i) as [symbol|] eqn:Hi.
    + rewrite IH. rewrite (drop_S _ _ _ Hi). cbn [zip_with length].
      rewrite <- app_assoc. cbn [app].
      destruct (decide (length rest <= length (drop (S i) symbols))%nat);
        destruct (decide _); try lia; reflexivity.
    + apply lookup_ge_None in Hi. rewrite drop_ge by lia.
      destruct (decide _) as [Hle|_]; [cbn [length] in Hle; lia|].
      reflexivity.
Qed.

Lemma getResolvedParameters_spec `{TypeChecker} (signature : DeclaredSignature) :
  let declared := declaration_parameters (signature_declaration signature) in
  let symbols := signature_parameters signature in
  getResolvedParameters signature
  = if decide (length declared <= length symbols)%nat
    then inr (zip_with resolveParameter declared symbols)
    else inl (jsError "Cannot read property 'name' of undefined").
Proof.
  cbv zeta. unfold getResolvedParameters.
  rewrite getResolvedParameters_loop_spec. rewrite drop_0. reflexivity.
Qed.

(** The shape of a successful resolution. *)
Lemma createResolvedFunctionFromSignature_inr `{TypeChecker}
    (signature : DeclaredSignature) (classType : option TsType)
    (r : SignatureResolution) :
  createResolvedFunctionFromSignature signature classType = inr r ->
  let declaration := signature_declaration signature in
  exists name,
    getDeclaredFunctionName declaration = inr name /\
    (length (declaration_parameters declaration)
     <= length (signature_parameters signature))%nat /\
    functionName (resolution_function r) = name /\
    parameters (resolution_function r)
    = (zip_with resolveParameter (declaration_parameters declaration)
         (signature_parameters signature)).*1 /\
    resolution_parameterSymbols r
    = (zip_with resolveParameter (declaration_parameters declaration)
         (signature_parameters signature)).*2.
Proof.
  unfold createResolvedFunctionFromSignature. cbv zeta.
  rewrite getResolvedParameters_spec. cbv zeta.
  destruct (getDeclaredFunctionName _) as [f|name]; [discriminate|].
  destruct (decide _) as [Hle|]; [|discriminate].
  intros [= <-]. exists name. repeat split. exact Hle.
Qed.

(** X4: the resolved function of a signature has one parameter for each
    parameter of the declaration, in the order of the declaration: the
    i-th one is named after the i-th parameter symbol of the signature
    and has the type the checker gives that symbol; it is optional when
    the declaration has a question token, variadic when it has the rest
    token, and carries the declared initializer. *)
Theorem createResolvedFunctionFromSignature_parameters `{TypeChecker}
    (signature : DeclaredSignature) (classType : option TsType)
    (r : SignatureResolution) :
  createResolvedFunctionFromSignature signature classType = inr r ->
  let declared := declaration_parameters (signature_declaration signature) in
  length (parameters (resolution_function r)) = length declared /\
  forall (i : nat) (parameter : ParameterDeclaration),
    declared !! i = Some parameter ->
    exists symbol,
      signature_parameters signature !! i = Some symbol /\
      resolution_parameterSymbols r !! i = Some symbol /\
      parameters (resolution_function r) !! i
      = Some {| param_name := symbol_name symbol;
                param_type := getTypeOfSymbolAtLocation symbol parameter;
                param_initializer := parameter_initializer parameter;
                param_optional := parameter_questionToken parameter;
                param_variadic := parameter_dotDotDotToken parameter |}.
Proof.
  intros Hr. cbv zeta.
  destruct (createResolvedFunctionFromSignature_inr _ _ _ Hr)
    as (name & _ & Hle & _ & -> & ->).
  split.
  - rewrite length_fmap, length_zip_with. lia.
  - intros i parameter Hi.
    pose proof (lookup_lt_Some _ _ _ Hi) as Hlt.
    destruct (lookup_lt_is_Some_2 (signature_parameters signature) i)
      as [symbol Hsymbol]; [lia|].
    exists symbol. split; [exact Hsymbol|].
    rewrite !list_lookup_fmap, lookup_zip_with, Hi. simpl.
    rewrite Hsymbol. split; reflexivity.
Qed.

Lemma getDeclaredFunctionName_fails_iff `{TypeChecker}
    (declaration : SignatureDeclaration) :
  (exists f, getDeclaredFunctionName declaration = inl f) <->
  declaration_kind declaration <> ConstructSignature /\
  declaration_kind declaration <> Constructor /\
  exists name, declaration_name declaration = Some name /\
               getSymbolAtLocation name = None.
Proof.
  unfold getDeclaredFunctionName. split.
  - intros [f Hf].
    destruct (decide (declaration_kind declaration = ConstructSignature))
      as [Hcs|Hcs]; [rewrite bool_decide_eq_true_2 in Hf by exact Hcs;
                     discriminate|].
    destruct (decide (declaration_kind declaration = Constructor))
      as [Hc|Hc]; [rewrite (bool_decide_eq_true_2 _ Hc), orb_true_r in Hf;
                   discriminate|].
    split; [exact Hcs|]. split; [exact Hc|].
    destruct (declaration_name declaration) as [name|];
      [|destruct (_ || _); discriminate].
    exists name. split; [reflexivity|].
    destruct (getSymbolAtLocation name); [|reflexivity].
    destruct (_ || _); discriminate.
  - intros (Hcs & Hc & name & -> & ->).
    rewrite !bool_decide_eq_false_2 by assumption. eexists. reflexivity.
Qed.

Lemma getDeclaredFunctionName_failure `{TypeChecker}
    (declaration : SignatureDeclaration) (f : Failure) :
  getDeclaredFunctionName declaration = inl f -> diagnosticKind f = None.
Proof.
  unfold getDeclaredFunctionName.
  destruct (_ || _); [discriminate|].
  destruct (declaration_name declaration) as [name|]; [|discriminate].
  destruct (getSymbolAtLocation name); [discriminate|].
  intros [= <-]. reflexivity.
Qed.

(** X5: resolving a signature fails in two cases only, each a JavaScript
    error and no diagnostic: the signature has fewer parameter symbols
    than its declaration has parameters, or the declaration, not being a
    constructor, has a name for which the checker has no symbol. *)
Theorem createResolvedFunctionFromSignature_fails_iff `{TypeChecker}
    (signature : DeclaredSignature) (classType : option TsType) :
  let declaration := signature_declaration signature in
  ((exists f, createResolvedFunctionFromSignature signature classType = inl f)
   <->
   (length (signature_parameters signature)
    < length (declaration_parameters declaration))%nat \/
   (declaration_kind declaration <> ConstructSignature /\
    declaration_kind declaration <> Constructor /\
    exists name, declaration_name declaration = Some name /\
                 getSymbolAtLocation name = None)) /\
  (forall f, createResolvedFunctionFromSignature signature classType = inl f ->
             diagnosticKind f = None).
Proof.
  cbv zeta. rewrite <- getDeclaredFunctionName_fails_iff.
  unfold createResolvedFunctionFromSignature. cbv zeta.
  rewrite getResolvedParameters_spec. cbv zeta.
  destruct (getDeclaredFunctionName (signature_declaration signature))
    as [f|name] eqn:Hname.
  - split.
    + split; [intros _; right; eauto | intros _; eauto].
    + intros f' [= <-]. eapply getDeclaredFunctionName_failure, Hname.
  - destruct (decide _) as [Hle|Hgt].
    + split.
      * split; [intros [f [=]] | intros [?|[f [=]]]; lia].
      * intros f [=].
    + split.
      * split; [intros _; left; lia | intros _; eauto].
      * intros f [= <-]. reflexivity.
Qed.

(** X6: a construct signature and a constructor declaration always
    resolve to a function named [constructor] that is no instance
    method, whatever the declaration is called and whatever its
    modifiers; resolving them can only fail for want of parameter
    symbols.  The class type is the one the caller passes; without it, it
    is the return type for a construct signature and undefined for a
    constructor declaration. *)
Theorem createResolvedFunctionFromSignature_constructor `{TypeChecker}
    (signature : DeclaredSignature) (passed : option TsType) :
  let declaration := signature_declaration signature in
  declaration_kind declaration = ConstructSignature \/
  declaration_kind declaration = Constructor ->
  (length (declaration_parameters declaration)
   <= length (signature_parameters signature))%nat ->
  exists r,
    createResolvedFunctionFromSignature signature passed = inr r /\
    functionName (resolution_function r) = Some "constructor" /\
    instanceMethod (resolution_function r) = false /\
    classType (resolution_function r)
    = match passed with
      | Some c => Some c
      | None =>
          if bool_decide (declaration_kind declaration = ConstructSignature)
          then Some (signature_returnType signature)
          else None
      end.
Proof.
  cbv zeta. intros Hkind Hle.
  unfold createResolvedFunctionFromSignature. cbv zeta.
  rewrite getResolvedParameters_spec. cbv zeta.
  rewrite decide_True by exact Hle.
  unfold getDeclaredFunctionName, isInstanceMethod, getClassType.
  destruct Hkind as [Hkind|Hkind]; rewrite Hkind; cbn;
    eexists; (split; [reflexivity|]); repeat split.
Qed.

(** X7: the implementation of an overloaded function is found from any of
    its signatures.  When the symbol of the declaration has more than one
    declaration and the checker marks one as the implementation, the
    definition of the resolved function is the first such declaration;
    and a definition, when there is one, is either such an
    implementation or the declaration of the signature itself, which
    then has a body. *)
Theorem createResolvedFunctionFromSignature_definition `{TypeChecker}
    (signature : DeclaredSignature) (passed : option TsType)
    (r : SignatureResolution) :
  createResolvedFunctionFromSignature signature passed = inr r ->
  let declaration := signature_declaration signature in
  (forall symbol declarations implementation,
     resolution_symbol r = Some symbol ->
     symbolDeclarations symbol = Some declarations ->
     (1 < length declarations)%nat ->
     implementation ∈ declarations ->
     isImplementationOfOverload implementation = true ->
     exists i first,
       resolution_definition r = Some first /\
       declarations !! i = Some first /\
       isImplementationOfOverload first = true /\
       forall j other, declarations !! j = Some other -> (j < i)%nat ->
                       isImplementationOfOverload other = false) /\
  (forall definition,
     resolution_definition r = Some definition ->
     (definition = declaration /\ declaration_body declaration = true) \/
     (isImplementationOfOverload definition = true /\
      exists symbol declarations,
        resolution_symbol r = Some symbol /\
        symbolDeclarations symbol = Some declarations /\
        definition ∈ declarations)).
Proof.
  unfold createResolvedFunctionFromSignature. cbv zeta.
  destruct (getDeclaredFunctionName _) as [f|name]; [discriminate|].
  destruct (getResolvedParameters signature) as [f|resolved]; [discriminate|].
  intros [= <-]. cbn [resolution_symbol resolution_definition]. split.
  - intros symbol declarations implementation -> Hdecls Hmany Hin Himpl.
    cbn [mbind option_bind]. rewrite Hdecls.
    rewrite bool_decide_eq_true_2 by exact Hmany.
    destruct (list_find isImplementationOfOverload declarations)
      as [[i first]|] eqn:Hfind.
    + apply list_find_Some in Hfind as (Hi & Hfirst & Hbefore).
      exists i, first. repeat split; [exact Hi | |].
      * apply Is_true_true, Hfirst.
      * intros j other Hj Hlt. specialize (Hbefore j other Hj Hlt).
        destruct (isImplementationOfOverload other); [|reflexivity].
        exfalso. apply Hbefore. exact I.
    + apply list_find_None in Hfind.
      rewrite Forall_forall in Hfind. exfalso.
      apply (Hfind implementation Hin). apply Is_true_true, Himpl.
  - intros definition.
    destruct (declaration_name (signature_declaration signature)
              ≫= getSymbolAtLocation) as [symbol|] eqn:Hsymbol;
      cbn [mbind option_bind].
    + destruct (symbolDeclarations symbol) as [declarations|] eqn:Hdecls.
      * destruct (bool_decide (1 < length declarations)%nat).
        -- destruct (list_find isImplementationOfOverload declarations)
             as [[i first]|] eqn:Hfind.
           ++ intros [= <-]. right.
              apply list_find_Some in Hfind as (Hi & Hfirst & _).
              split; [apply Is_true_true, Hfirst|].
              exists symbol, declarations. repeat split; try assumption.
              eapply list_elem_of_lookup_2, Hi.
           ++ destruct (declaration_body _) eqn:Hbody; intros [= <-].
              left. split; reflexivity.
        -- destruct (declaration_body _) eqn:Hbody; intros [= <-].
           left. split; reflexivity.
      * destruct (declaration_body _) eqn:Hbody; intros [= <-].
        left. split; reflexivity.
    + destruct (declaration_body _) eqn:Hbody; intros [= <-].
      left. split; reflexivity.
Qed.

(** X8: a function declared async keeps its declared name.  The resolved
    function of a signature is async exactly when the declaration has the
    async modifier, and then its mangled name is the declared name for
    every tuple of parameter types: [constructor] for a constructor, the
    name of the symbol for a named declaration, and undefined for an
    anonymous function.  Without the modifier the name is the one of the
    base factory. *)
Theorem async_signature_mangled_name `{Collaborators} `{TypeChecker}
    (signature : DeclaredSignature) (passed : option TsType)
    (r : SignatureResolution) (types : list TsType) :
  createResolvedFunctionFromSignature signature passed = inr r ->
  let declaration := signature_declaration signature in
  let resolved := resolution_function r in
  (async resolved = true <->
   exists modifiers, declaration_modifiers declaration = Some modifiers /\
                     AsyncKeyword ∈ modifiers) /\
  (async resolved = true ->
     getDeclaredFunctionName declaration
     = inr (mangleFunctionName resolved types) /\
     (declaration_kind declaration <> ConstructSignature ->
      declaration_kind declaration <> Constructor ->
      declaration_name declaration = None ->
      mangleFunctionName resolved types = None)) /\
  (async resolved = false ->
     mangleFunctionName resolved types
     = Some (FunctionFactory_mangleFunctionName resolved types)).
Proof.
  intros Hr. cbv zeta.
  destruct (createResolvedFunctionFromSignature_inr _ _ _ Hr)
    as (name & Hname & _ & Hfn & _ & _).
  assert (async (resolution_function r)
          = match declaration_modifiers (signature_declaration signature) with
            | Some modifiers =>
                existsb (fun modifier => bool_decide (modifier = AsyncKeyword))
                  modifiers
            | None => false
            end) as Hasync.
  { revert Hr. unfold createResolvedFunctionFromSignature. cbv zeta.
    destruct (getDeclaredFunctionName _); [discriminate|].
    destruct (getResolvedParameters signature); [discriminate|].
    intros [= <-]. reflexivity. }
  unfold mangleFunctionName. split; [|split].
  - rewrite Hasync.
    destruct (declaration_modifiers _) as [modifiers|].
    + rewrite existsb_exists. split.
      * intros (m & Hin & Hm). apply bool_decide_eq_true_1 in Hm. subst m.
        exists modifiers. split; [reflexivity|]. apply list_elem_of_In, Hin.
      * intros (modifiers' & [= <-] & Hin). exists AsyncKeyword.
        split; [apply list_elem_of_In, Hin | apply bool_decide_eq_true_2; reflexivity].
    + split; [discriminate | intros (m & [=] & _)].
  - intros ->. rewrite Hfn. split; [exact Hname|].
    intros Hcs Hc Hanonymous. revert Hname.
    unfold getDeclaredFunctionName.
    rewrite !bool_decide_eq_false_2 by assumption. rewrite Hanonymous.
    intros [= <-]. reflexivity.
  - intros ->. reflexivity.
Qed.

(** * The properties on the sample program world *)

#[local] Existing Instance Sample.collaborators.

(** The base mangler of the sample separates the parameter-type tuples of
    two functions of one name. *)
Lemma sample_base_separates (f g : ResolvedFunction) (a b : list TsType) :
  functionName f = functionName g ->
  a <> b ->
  Sample.baseMangledName f a <> Sample.baseMangledName g b.
Proof.
  intros Hname Hne Heq. unfold Sample.baseMangledName in Heq.
  rewrite Hname in Heq.
  apply (inj (String.app _)), (inj (String.app _)), (inj pretty),
    (inj encode) in Heq.
  exact (Hne Heq).
Qed.

Lemma literal_generate_witness :
  let generate :=
    FirstLiteralTokenCodeGenerator_generate in
  generate (FirstLiteralToken 3 "42" Sample.int) "42" Sample.context
  = (inr (Primitive (ConstantInt (UnaryPlus "42")) Sample.int),
     Sample.context) /\
  generate (FirstLiteralToken 3 "1.5" Sample.number) "1.5" Sample.context
  = (inr (Primitive (ConstantFP (UnaryPlus "1.5")) Sample.number),
     Sample.context) /\
  (exists d,
     generate (FirstLiteralToken 3 "7" Sample.string_) "7" Sample.context
     = (inl d, Sample.context) /\
     diagnosticKind d = Some InvalidLiteral /\
     diagnosticLocation d = Some 3%nat /\
     diagnosticTypeName d = Some "string").
Proof.
  cbv zeta. split; [|split].
  - exact (proj1 (literal_generate_by_static_type
                    (FirstLiteralToken 3 "42" Sample.int) "42" Sample.context)
             eq_refl).
  - exact (proj1 (proj2 (literal_generate_by_static_type
                           (FirstLiteralToken 3 "1.5" Sample.number) "1.5"
                           Sample.context))
             eq_refl eq_refl).
  - exact (proj2 (proj2 (literal_generate_by_static_type
                           (FirstLiteralToken 3 "7" Sample.string_) "7"
                           Sample.context))
             eq_refl eq_refl).
Defined.


Lemma prefix_unary_instruction_family_witness :
  let generate :=
    PrefixUnaryExpressionCodeGenerator_generate generateValue in
  let x := Identifier 1 Sample.x Sample.int in
  let increment := PrefixUnaryExpression 0 PlusPlusToken x Sample.int in
  let literal := FirstLiteralToken 1 "1.5" Sample.number in
  let negation := PrefixUnaryExpression 0 MinusToken literal Sample.number in
  let loaded := Load (Register 0) in
  (exists ctx3,
     insert (Add loaded (ConstantInt (Num 1)) "add")
       (generateIR (Allocation (Register 0) Sample.int) Sample.context).2
     = (inr (Add loaded (ConstantInt (Num 1)) "add"), ctx3) /\
     instructions ctx3 = [loaded; Add loaded (ConstantInt (Num 1)) "add"] /\
     generate increment PlusPlusToken x Sample.context
     = finishPrefixUnary PlusPlusToken (Allocation (Register 0) Sample.int)
         (Add loaded (ConstantInt (Num 1)) "add") Sample.int ctx3) /\
  (exists ctx3,
     insert (FNeg (ConstantFP (UnaryPlus "1.5")) "neg") Sample.context
     = (inr (FNeg (ConstantFP (UnaryPlus "1.5")) "neg"), ctx3) /\
     instructions ctx3 = [FNeg (ConstantFP (UnaryPlus "1.5")) "neg"] /\
     generate negation MinusToken literal Sample.context
     = finishPrefixUnary MinusToken
         (Primitive (ConstantFP (UnaryPlus "1.5")) Sample.number)
         (FNeg (ConstantFP (UnaryPlus "1.5")) "neg") Sample.number ctx3).
Proof.
  cbv zeta. split.
  - exact (prefix_unary_instruction_family generateValue
             (PrefixUnaryExpression 0 PlusPlusToken
                (Identifier 1 Sample.x Sample.int) Sample.int)
             PlusPlusToken (Identifier 1 Sample.x Sample.int)
             (Allocation (Register 0) Sample.int) (Load (Register 0))
             (Add (Load (Register 0)) (ConstantInt (Num 1)) "add")
             Sample.context Sample.context
             (generateIR (Allocation (Register 0) Sample.int) Sample.context).2
             eq_refl eq_refl (or_introl (conj eq_refl eq_refl))).
  - exact (prefix_unary_instruction_family generateValue
             (PrefixUnaryExpression 0 MinusToken
                (FirstLiteralToken 1 "1.5" Sample.number) Sample.number)
             MinusToken (FirstLiteralToken 1 "1.5" Sample.number)
             (Primitive (ConstantFP (UnaryPlus "1.5")) Sample.number)
             (ConstantFP (UnaryPlus "1.5"))
             (FNeg (ConstantFP (UnaryPlus "1.5")) "neg")
             Sample.context Sample.context Sample.context
             eq_refl eq_refl
             (or_intror (conj eq_refl (conj eq_refl eq_refl)))).
Defined.


Lemma array_construction_requires_gc_witness :
  requiresGc Sample.context = false /\
  requiresGc
    (ArrayClassReference_fromLiteral Sample.intArray
       [Register 1; Register 2; Register 3] Sample.context).2 = true /\
  requiresGc
    (ArrayClassReference_fromCArray Sample.intArray (Register 1) (Register 2)
       Sample.context).2 = true /\
  requiresGc
    (ArrayClassReference_getConstructor
       {| new_pos := 0;
          new_resolvedSignature :=
            {| sig_name := "constructor"; sig_parameterTypes := [];
               sig_returnType := Sample.intArray; sig_variadic := false |} |}
       Sample.context).2 = true.
Proof.
  split; [reflexivity|]. split; [|split].
  - destruct (ArrayClassReference_fromLiteral _ _ _) as [[e|v] ctx'] eqn:E;
      [vm_compute in E; discriminate|].
    exact (proj1 array_construction_requires_gc _ _ _ _ _ E).
  - destruct (ArrayClassReference_fromCArray _ _ _ _) as [[e|v] ctx'] eqn:E;
      [vm_compute in E; discriminate|].
    exact (proj1 (proj2 array_construction_requires_gc) _ _ _ _ _ _ E).
  - destruct (ArrayClassReference_getConstructor _ _) as [[e|v] ctx'] eqn:E;
      [vm_compute in E; discriminate|].
    exact (proj2 (proj2 array_construction_requires_gc) _ _ _ _ E).
Defined.

Lemma requiresGc_monotonic_witness :
  let literal := GenerateValue (FirstLiteralToken 0 "1" Sample.int) in
  let rejected := GenerateValue (FirstLiteralToken 9 "2" Sample.string_) in
  let construct :=
    ArrayFromLiteral Sample.intArray [Register 1; Register 2; Register 3] in
  let fromBuffer := ArrayFromCArray Sample.intArray (Register 1) (Register 2) in
  requiresGc (runSteps [literal; construct] Sample.context).2 = true /\
  requiresGc
    (runSteps ([literal; construct] ++ [literal; rejected; literal])
       Sample.context).2 = true /\
  requiresGc (runSteps [fromBuffer; literal; rejected] Sample.context).2 = true.
Proof.
  cbv zeta. split; [reflexivity|]. split.
  - exact (proj1 (requiresGc_monotonic
                    [GenerateValue (FirstLiteralToken 0 "1" Sample.int);
                     ArrayFromLiteral Sample.intArray
                       [Register 1; Register 2; Register 3]]
                    [GenerateValue (FirstLiteralToken 0 "1" Sample.int);
                     GenerateValue (FirstLiteralToken 9 "2" Sample.string_);
                     GenerateValue (FirstLiteralToken 0 "1" Sample.int)]
                    Sample.context)
             eq_refl).
  - exact (proj2 (requiresGc_monotonic []
                    [GenerateValue (FirstLiteralToken 0 "1" Sample.int);
                     GenerateValue (FirstLiteralToken 9 "2" Sample.string_)]
                    Sample.context)
             (ArrayFromCArray Sample.intArray (Register 1) (Register 2))
             eq_refl eq_refl).
Defined.

Lemma array_layout_witness :
  getLLVMArrayElementType Sample.maybeFoo = inr (PointerTy Int8Ty) /\
  getLLVMArrayElementType Sample.boolean = inr Int8Ty /\
  getLLVMArrayElementType Sample.int = inr Int32Ty /\
  (exists id this',
     ArrayClassReference_getLLVMType Sample.fresh Sample.intArray
     = (inr (StructTy id), this') /\
     structBody this' (StructTy id)
     = Some [PointerTy Int32Ty; PointerTy Int32Ty; Int32Ty]) /\
  (let failed :=
     (ArrayClassReference_getLLVMType (H := SampleArrays.collaborators)
        Sample.fresh SampleArrays.stringArray).2 in
   exists id1 id2 this1 this2,
     ArrayClassReference_getLLVMType (H := SampleArrays.collaborators)
       failed Sample.FooArray = (inr (StructTy id1), this1) /\
     ArrayClassReference_getLLVMType (H := SampleArrays.collaborators)
       this1 SampleArrays.maybeFooArray = (inr (StructTy id2), this2) /\
     structBody this2 (StructTy id1)
     = Some [PointerTy (PointerTy Int8Ty); PointerTy (PointerTy Int8Ty);
             Int32Ty] /\
     structBody this2 (StructTy id2)
     = Some [PointerTy (PointerTy Int8Ty); PointerTy (PointerTy Int8Ty);
             Int32Ty]).
Proof.
  split; [|split; [|split; [|split]]].
  - exact (proj1 (proj1 (array_layout_by_element_type (H := Sample.collaborators)) Sample.maybeFoo) eq_refl).
  - exact (proj1 (proj2 (proj1 (array_layout_by_element_type (H := Sample.collaborators)) Sample.boolean))
             eq_refl eq_refl).
  - exact (proj2 (proj2 (proj1 (array_layout_by_element_type (H := Sample.collaborators)) Sample.int))
             eq_refl eq_refl).
  - exact (proj1 (proj2 (array_layout_by_element_type (H := Sample.collaborators)))
             Sample.fresh Sample.intArray Int32Ty
             (reachable_created (H := Sample.collaborators)) eq_refl).
  - cbv zeta.
    exact (proj2 (proj2 (array_layout_by_element_type
                           (H := SampleArrays.collaborators)))
             _ Sample.FooArray SampleArrays.maybeFooArray (PointerTy Int8Ty)
             (reachable_getLLVMType (H := SampleArrays.collaborators)
                Sample.fresh SampleArrays.stringArray
                (reachable_created (H := SampleArrays.collaborators)))
             eq_refl eq_refl).
Defined.



Lemma math_unknown_member_witness :
  let this := ObjectReference (Register 1) Sample.MathType in
  let frobnicate := {| symbol_id := 9; symbol_name := "frobnicate" |} in
  let access := {| access_pos := 4; access_name := "frobnicate" |} in
  (exists d,
     MathObjectReference_createFunctionFor this frobnicate [] access
       Sample.context = (inl d, Sample.context) /\
     diagnosticKind d = Some UnsupportedBuiltIn /\
     diagnosticLocation d = Some 4%nat /\
     diagnosticMember d = Some ("Math", "frobnicate")) /\
  (exists d,
     MathObjectReference_createPropertyReference this frobnicate access
       Sample.context = (inl d, Sample.context) /\
     diagnosticKind d = Some UnsupportedBuiltIn /\
     diagnosticLocation d = Some 4%nat /\
     diagnosticMember d = Some ("Math", "frobnicate")).
Proof.
  cbv zeta.
  apply (math_unknown_member_fails (ObjectReference (Register 1) Sample.MathType)
           {| symbol_id := 9; symbol_name := "frobnicate" |} []
           {| access_pos := 4; access_name := "frobnicate" |} Sample.context).
  apply not_elem_of_cons; split; [discriminate|].
  repeat (apply not_elem_of_cons; split; [discriminate|]).
  apply not_elem_of_nil.
Defined.

Lemma pow_witness :
  let a := SIToFP (Register 5) DoubleTy in
  let b := SIToFP (Register 6) DoubleTy in
  exists name operands ctx',
    let call := Call name operands {| readnone := true; noUnwind := true |} in
    MathObjectReference_pow (Primitive (Register 5) Sample.int) Sample.int
      (Primitive (Register 6) Sample.int) Sample.int Sample.number
      Sample.context
    = (inr (context_value call Sample.number), ctx') /\
    take 2 operands = [a; b] /\
    instructions ctx' = instructions Sample.context ++ [a] ++ [b] ++ [call].
Proof.
  cbv zeta.
  exact (pow_converts_operands_and_is_pure
           (Primitive (Register 5) Sample.int) Sample.int
           (Primitive (Register 6) Sample.int) Sample.int Sample.number
           Sample.context Sample.context Sample.Math
           (ObjectReference (Register 1) Sample.MathType)
           (ObjectReference (Register 1) Sample.MathType)
           {| sig_name := "pow";
              sig_parameterTypes := [Sample.number; Sample.number];
              sig_returnType := Sample.number;
              sig_variadic := false |}
           [SIToFP (Register 5) DoubleTy] [SIToFP (Register 6) DoubleTy]
           (SIToFP (Register 5) DoubleTy) (SIToFP (Register 6) DoubleTy)
           eq_refl eq_refl eq_refl eq_refl eq_refl eq_refl).
Defined.

Lemma isPrime_witness :
  isPrime 9 97 = Some true /\
  isPrime 9 91 = Some false /\
  isPrime 9 2 = Some false /\
  exists b, isPrime 9 97 = Some b /\ (b = true <-> Z.prime 97 /\ 97 <> 2).
Proof.
  split; [reflexivity|]. split; [reflexivity|]. split; [reflexivity|].
  apply (isPrime_correct 9 97).
  - change (2 ^ 31) with 2147483648. lia.
  - vm_compute. discriminate.
Defined.

Lemma initializeCompilerOptions_witness :
  let initialized := initializeCompilerOptions SampleArrays.options in
  getProperty initialized "unsafe" = JsBoolean false /\
  getProperty initialized "totalStack" = JsNumber 532480 /\
  getProperty initialized "strictNullChecks" = JsBoolean true /\
  getProperty initialized "lib" = JsArray [JsString "lib.es2015.d.ts"] /\
  initialized !! "outDir" = Some (JsString "build").
Proof.
  pose proof (initializeCompilerOptions_fills_defaults SampleArrays.options)
    as Hfills.
  cbv zeta in *.
  destruct Hfills as (Hdefault & Hstrict & _ & _ & Hlib & Hother).
  split; [|split; [|split; [|split]]].
  - apply (Hdefault "unsafe" (JsBoolean true)).
    apply (list_elem_of_lookup_2 _ 0%nat). reflexivity.
  - apply (Hdefault "totalStack" (JsNumber (5 * 1024 * 104))).
    apply (list_elem_of_lookup_2 _ 5%nat). reflexivity.
  - exact Hstrict.
  - exact Hlib.
  - apply (Hother "outDir").
    + apply (bool_decide_unpack ("outDir" ∉ defaults.*1)).
      vm_compute. exact I.
    + apply (bool_decide_unpack
               ("outDir" ∉ ["strictNullChecks"; "noImplicitAny";
                            "noImplicitReturns"; "lib"])).
      vm_compute. exact I.
Defined.

Lemma createResolvedFunctionFromSignature_parameters_witness :
  exists r,
    createResolvedFunctionFromSignature (H := SampleSignatures.checker)
      SampleSignatures.pushSignature None = inr r /\
    length (parameters (resolution_function r)) = 1%nat /\
    parameters (resolution_function r) !! 0%nat
    = Some {| param_name := "items";
              param_type := SampleSignatures.intArray;
              param_initializer := None;
              param_optional := false;
              param_variadic := true |}.
Proof.
  eexists. split; [reflexivity|].
  destruct (createResolvedFunctionFromSignature_parameters
              (H := SampleSignatures.checker) SampleSignatures.pushSignature
              None _ eq_refl) as [Hlength Hparameters].
  split; [exact Hlength|].
  destruct (Hparameters 0%nat SampleSignatures.rest eq_refl)
    as (symbol & Hsymbol & _ & Hparameter).
  injection Hsymbol as <-. exact Hparameter.
Defined.

Lemma createResolvedFunctionFromSignature_fails_witness :
  (exists f,
     createResolvedFunctionFromSignature (H := SampleSignatures.checker)
       SampleSignatures.brokenSignature None = inl f) /\
  forall f,
    createResolvedFunctionFromSignature (H := SampleSignatures.checker)
      SampleSignatures.brokenSignature None = inl f ->
    diagnosticKind f = None.
Proof.
  pose proof (createResolvedFunctionFromSignature_fails_iff
                (H := SampleSignatures.checker)
                SampleSignatures.brokenSignature None) as [Hiff Hkind].
  split; [|exact Hkind].
  apply Hiff. left. cbn. lia.
Defined.

Lemma createResolvedFunctionFromSignature_constructor_witness :
  exists r,
    createResolvedFunctionFromSignature (H := SampleSignatures.checker)
      SampleSignatures.newArraySignature None = inr r /\
    functionName (resolution_function r) = Some "constructor" /\
    instanceMethod (resolution_function r) = false /\
    classType (resolution_function r) = Some SampleSignatures.intArray.
Proof.
  apply (createResolvedFunctionFromSignature_constructor
           (H := SampleSignatures.checker)
           SampleSignatures.newArraySignature None).
  - left. reflexivity.
  - cbn. lia.
Defined.

Lemma createResolvedFunctionFromSignature_definition_witness :
  exists r i first,
    createResolvedFunctionFromSignature (H := SampleSignatures.checker)
      SampleSignatures.runSignature None = inr r /\
    resolution_definition r = Some first /\
    [SampleSignatures.runOverload; SampleSignatures.runImplementation] !! i
    = Some first /\
    isImplementationOfOverload (TypeChecker := SampleSignatures.checker) first
    = true.
Proof.
  eexists.
  destruct (proj1 (createResolvedFunctionFromSignature_definition
                     (H := SampleSignatures.checker)
                     SampleSignatures.runSignature None _ eq_refl)
              SampleSignatures.run
              [SampleSignatures.runOverload; SampleSignatures.runImplementation]
              SampleSignatures.runImplementation eq_refl eq_refl)
    as (i & first & Hdefinition & Hi & Hfirst & _).
  - cbn. lia.
  - apply (list_elem_of_lookup_2 _ 1%nat). reflexivity.
  - reflexivity.
  - exists i, first. split; [reflexivity|].
    split; [exact Hdefinition|]. split; [exact Hi | exact Hfirst].
Defined.

Lemma async_signature_mangled_name_witness :
  (exists r,
     createResolvedFunctionFromSignature (H := SampleSignatures.checker)
       SampleSignatures.runSignature None = inr r /\
     async (resolution_function r) = true /\
     getDeclaredFunctionName (H := SampleSignatures.checker)
       SampleSignatures.runOverload
     = inr (mangleFunctionName (H := Sample.collaborators)
              (resolution_function r) [Sample.int])) /\
  (exists r,
     createResolvedFunctionFromSignature (H := SampleSignatures.checker)
       SampleSignatures.anonymousSignature None = inr r /\
     mangleFunctionName (H := Sample.collaborators)
       (resolution_function r) [] = None).
Proof.
  split.
  - eexists. split; [reflexivity|].
    destruct (async_signature_mangled_name (H := Sample.collaborators)
                (H0 := SampleSignatures.checker)
                SampleSignatures.runSignature None _ [Sample.int] eq_refl)
      as (Hasync & Hname & _).
    split; [reflexivity|].
    apply Hname. reflexivity.
  - eexists. split; [reflexivity|].
    destruct (async_signature_mangled_name (H := Sample.collaborators)
                (H0 := SampleSignatures.checker)
                SampleSignatures.anonymousSignature None _ [] eq_refl)
      as (Hasync & Hname & _).
    apply Hname; [reflexivity|discriminate|discriminate|reflexivity].
Defined.

Lemma getLLVMType_cached_witness :
  let this1 :=
    (ArrayClassReference_getLLVMType (H := SampleArrays.collaborators)
       Sample.fresh SampleArrays.maybeFooArray).2 in
  ArrayClassReference_getLLVMType (H := SampleArrays.collaborators)
    this1 Sample.FooArray
  = (inr (StructTy 0), this1).
Proof.
  cbv zeta.
  apply (getLLVMType_cached (H := SampleArrays.collaborators) Sample.fresh _
           SampleArrays.maybeFooArray Sample.FooArray (StructTy 0)).
  - vm_compute. reflexivity.
  - vm_compute. reflexivity.
Defined.

Lemma getLLVMType_failure_is_cached_witness :
  exists f this1,
    ArrayClassReference_getLLVMType (H := SampleArrays.collaborators)
      Sample.fresh SampleArrays.stringArray = (inl f, this1) /\
    ArrayClassReference_getLLVMType (H := SampleArrays.collaborators)
      this1 SampleArrays.stringArray = (inr (StructTy 0), this1) /\
    structBody this1 (StructTy 0) = None.
Proof.
  destruct (getLLVMArrayElementType (H := SampleArrays.collaborators)
              (cachedElementType (H := SampleArrays.collaborators)
                 SampleArrays.stringArray)) as [f|t] eqn:E;
    [|vm_compute in E; discriminate].
  destruct (getLLVMType_failure_is_cached (H := SampleArrays.collaborators)
              Sample.fresh SampleArrays.stringArray f
              ltac:(vm_compute; reflexivity) E)
    as (this1 & Hfails & Hagain & _ & Hbody).
  exists f, this1. split; [exact Hfails|]. split; [exact Hagain | exact Hbody].
Defined.

Lemma getLLVMType_distinct_witness :
  let this1 :=
    (ArrayClassReference_getLLVMType (H := Sample.collaborators)
       Sample.fresh Sample.intArray).2 in
  let this2 :=
    (ArrayClassReference_getLLVMType (H := Sample.collaborators)
       this1 Sample.FooArray).2 in
  (ArrayClassReference_getLLVMType (H := Sample.collaborators)
     Sample.fresh Sample.intArray).1 = inr (StructTy 0) /\
  (ArrayClassReference_getLLVMType (H := Sample.collaborators)
     this1 Sample.FooArray).1 = inr (StructTy 1) /\
  cache_distinct this2 /\ StructTy 0 <> StructTy 1.
Proof.
  cbv zeta. split; [vm_compute; reflexivity|].
  split; [vm_compute; reflexivity|].
  apply (getLLVMType_distinct (H := Sample.collaborators) Sample.fresh
           (ArrayClassReference_getLLVMType (H := Sample.collaborators)
              Sample.fresh Sample.intArray).2
           _ Sample.intArray Sample.FooArray).
  - split.
    + intros elementType id Hid. discriminate Hid.
    + intros elementType1 elementType2 id Hid. discriminate Hid.
  - vm_compute. reflexivity.
  - vm_compute. reflexivity.
  - vm_compute. discriminate.
Defined.

Lemma fromCArray_declares_once_witness :
  let name :=
    mangleMethodName (Collaborators := Sample.collaborators) Sample.intArray
      "constructor" [Sample.intArray] in
  exists v ctx1 fn ctx2,
    ArrayClassReference_fromCArray (H := Sample.collaborators) Sample.intArray
      (Register 1) (Register 2) Sample.context = (inr v, ctx1) /\
    functions ctx1 !! name = Some fn /\
    fn_alwaysInline fn = true /\
    ArrayClassReference_fromCArray (H := Sample.collaborators) Sample.intArray
      (Register 3) (Register 4) ctx1
    = (inr (context_value
              (Call (fn_name fn) [Register 3; Register 4]
                 {| readnone := false; noUnwind := false |})
              Sample.intArray), ctx2) /\
    functions ctx2 = functions ctx1.
Proof.
  cbv zeta.
  destruct (ArrayClassReference_fromCArray (H := Sample.collaborators)
              Sample.intArray (Register 1) (Register 2) Sample.context)
    as [[f|v] ctx1] eqn:E; [vm_compute in E; discriminate|].
  destruct (fromCArray_declares_once (H := Sample.collaborators)
              Sample.intArray (Register 1) (Register 2) (Register 3)
              (Register 4) v Sample.context ctx1 E)
    as (fn & Hfn & Hdeclared & _ & ctx2 & Hagain & Hfunctions & _).
  exists v, ctx1, fn, ctx2. split; [reflexivity|]. split; [exact Hfn|].
  split; [apply Hdeclared; vm_compute; reflexivity|].
  split; [exact Hagain | exact Hfunctions].
Defined.

Lemma fromCArray_fails_cleanly_witness :
  exists f,
    ArrayClassReference_fromCArray (H := SampleArrays.collaborators)
      SampleArrays.stringArray (Register 1) (Register 2) Sample.context
    = (inl f, Sample.context).
Proof.
  destruct (getLLVMArrayElementType (H := SampleArrays.collaborators)
              (getArrayElementType (Collaborators := SampleArrays.collaborators)
                 SampleArrays.stringArray)) as [f|t] eqn:E;
    [|vm_compute in E; discriminate].
  exists f.
  apply (fromCArray_fails_cleanly (H := SampleArrays.collaborators)).
  - vm_compute. reflexivity.
  - left. exact E.
Defined.

Lemma math_members_by_name_witness :
  let this := ObjectReference (Register 1) Sample.MathType in
  let sqrt := {| symbol_id := 9; symbol_name := "sqrt" |} in
  let PI := {| symbol_id := 10; symbol_name := "PI" |} in
  let access := {| access_pos := 4; access_name := "sqrt" |} in
  MathObjectReference_createFunctionFor this sqrt [] access Sample.context
  = (inr (UnresolvedMethodReference this []
            {| readnone := true; noUnwind := true |}), Sample.context) /\
  MathObjectReference_createPropertyReference this PI access Sample.context
  = (inr {| property_access := access;
            property_object := this;
            property_readonly := true;
            property_fromRuntime := true |}, Sample.context).
Proof.
  cbv zeta. split.
  - apply (math_members_by_name
             (ObjectReference (Register 1) Sample.MathType)
             {| symbol_id := 9; symbol_name := "sqrt" |} []
             {| access_pos := 4; access_name := "sqrt" |} Sample.context).
    apply (list_elem_of_lookup_2 _ 1%nat). reflexivity.
  - apply (math_members_by_name
             (ObjectReference (Register 1) Sample.MathType)
             {| symbol_id := 10; symbol_name := "PI" |} []
             {| access_pos := 4; access_name := "sqrt" |} Sample.context).
    reflexivity.
Defined.

Lemma llvmArrayValue_stores_elements_witness :
  let values := [Register 1; ConstantInt (Num 2)] in
  let outcome :=
    llvmArrayValue (H := Sample.collaborators) (inl values) Int32Ty None
      SampleArrays.helperContext in
  let allocation := AllocaInst Int32Ty 2 None in
  helper_entryBlock outcome.2 = [allocation] /\
  helper_globals outcome.2 = [] /\
  helper_instructions outcome.2
  = [InBoundsGEP allocation [ConstantInt (Num 0); ConstantInt (Num 0)] None;
     InBoundsGEP allocation [ConstantInt (Num 0); ConstantInt (Num 0)] None;
     AlignedStore (Register 1)
       (InBoundsGEP allocation [ConstantInt (Num 0); ConstantInt (Num 0)] None)
       Int32Ty;
     InBoundsGEP allocation [ConstantInt (Num 0); ConstantInt (Num 1)] None;
     AlignedStore (ConstantInt (Num 2))
       (InBoundsGEP allocation [ConstantInt (Num 0); ConstantInt (Num 1)] None)
       Int32Ty].
Proof.
  cbv zeta.
  destruct (llvmArrayValue_stores_elements (H := Sample.collaborators)
              [Register 1; ConstantInt (Num 2)] Int32Ty None
              SampleArrays.helperContext)
    as (_ & Hentry & Hglobals & _ & Hinstructions & _).
  - discriminate.
  - reflexivity.
  - split; [exact Hentry|]. split; [exact Hglobals | exact Hinstructions].
Defined.

Lemma llvmArrayValue_copies_constants_witness :
  let values := [ConstantInt (Num 1); ConstantInt (Num 2)] in
  let outcome :=
    llvmArrayValue (H := Sample.collaborators) (inl values) Int32Ty None
      SampleArrays.helperContext in
  (exists g,
     helper_globals outcome.2 = [g] /\
     global_initializer g = values /\
     global_isConstant g = true) /\
  List.filter isStore (helper_instructions outcome.2) = [].
Proof.
  cbv zeta.
  destruct (llvmArrayValue_copies_constants (H := Sample.collaborators)
              [ConstantInt (Num 1); ConstantInt (Num 2)] Int32Ty None
              SampleArrays.helperContext)
    as (_ & _ & (g & Hglobals & Hinitializer & _ & _ & Hconstant & _)
        & _ & Hstores).
  - discriminate.
  - reflexivity.
  - split; [|exact Hstores].
    exists g. split; [exact Hglobals|].
    split; [exact Hinitializer | exact Hconstant].
Defined.

Lemma llvmArrayValue_generates_first_witness :
  let good := [FirstLiteralToken 0 "1" Sample.int] in
  let bad := [FirstLiteralToken 0 "1" Sample.int;
              FirstLiteralToken 9 "2" Sample.string_] in
  (exists f,
     (llvmArrayValue (H := Sample.collaborators) (inr bad) Int32Ty None
        SampleArrays.helperContext).1 = inl f /\
     helper_entryBlock
       (llvmArrayValue (H := Sample.collaborators) (inr bad) Int32Ty None
          SampleArrays.helperContext).2 = []) /\
  (exists values,
     length values = 1%nat /\
     llvmArrayValue (H := Sample.collaborators) (inr good) Int32Ty None
       SampleArrays.helperContext
     = llvmArrayValue (H := Sample.collaborators) (inl values) Int32Ty None
         (lift (generateElements (H := Sample.collaborators) good)
            SampleArrays.helperContext).2).
Proof.
  cbv zeta. split.
  - destruct (lift (generateElements (H := Sample.collaborators)
                      [FirstLiteralToken 0 "1" Sample.int;
                       FirstLiteralToken 9 "2" Sample.string_])
                SampleArrays.helperContext).1 as [f|values] eqn:E;
      [|vm_compute in E; discriminate].
    destruct (proj1 (llvmArrayValue_generates_first (H := Sample.collaborators)
                       [FirstLiteralToken 0 "1" Sample.int;
                        FirstLiteralToken 9 "2" Sample.string_]
                       Int32Ty None SampleArrays.helperContext
                       ltac:(discriminate)) f E)
      as (Houtcome & Hentry & _).
    exists f. split; [rewrite Houtcome; reflexivity | exact Hentry].
  - destruct (lift (generateElements (H := Sample.collaborators)
                      [FirstLiteralToken 0 "1" Sample.int])
                SampleArrays.helperContext).1 as [f|values] eqn:E;
      [vm_compute in E; discriminate|].
    destruct (proj2 (llvmArrayValue_generates_first (H := Sample.collaborators)
                       [FirstLiteralToken 0 "1" Sample.int]
                       Int32Ty None SampleArrays.helperContext
                       ltac:(discriminate)) values E)
      as (Hlength & Houtcome).
    exists values. split; [exact Hlength | exact Houtcome].
Defined.
